(** * powerfour: the compensation decision engine and the action state machine

    A shallow embedding of [ai.js] (market bands, heuristic scorer, advisor
    bridge, orchestrator, batch analyzer) and of [routes.js] (employee upsert,
    bulk upsert, analyze, action application) over the two Mongoose models.

    Modelling conventions.
    - A JavaScript number is an exact rational ([Q]); the only non-finite
      value that the engine can manufacture from finite inputs is [NaN]
      (arithmetic on an [undefined] property), so the numeric domain is
      [JS.num = Num q | NaN].  Binary rounding error is not modelled.
    - A property that may be missing is an [option]; [x || d] is written out
      with JavaScript truthiness (0, the empty string, [undefined] and [NaN]
      are falsy).
    - [obj[key]] on an object literal also finds the members that the literal
      inherits from [Object.prototype]; see [JS.get].
    - Documents and request bodies are typed by the schemas: a key is absent
      or holds a value of the declared type (a finite number, a string).
    - The document store is a finite map from [ssid] to employee documents,
      the action history a list, [new Date()] a clock reading passed in, and
      the external reasoning service an oracle handing back a response. *)

From Stdlib Require Import ZArith QArith Qround Qabs Lqa Lia Bool String Ascii List.
From stdpp Require Import base option list gmap strings.
Import ListNotations.

Local Open Scope string_scope.

(* ===================================================================== *)
(** ** JavaScript values                                                   *)
(* ===================================================================== *)

Module JS.

(** *** Numbers *)

Inductive num : Type :=
| Num (q : Q)
| NaN.

Definition lift2 (f : Q -> Q -> Q) (a b : num) : num :=
  match a, b with
  | Num x, Num y => Num (f x y)
  | _, _ => NaN
  end.

Definition add : num -> num -> num := lift2 Qplus.
Definition sub : num -> num -> num := lift2 Qminus.
Definition mul : num -> num -> num := lift2 Qmult.
Definition div : num -> num -> num := lift2 Qdiv.

Definition Qltb (x y : Q) : bool := negb (Qle_bool y x).
Definition Qleb (x y : Q) : bool := Qle_bool x y.
Definition Qnonzero (x : Q) : bool := negb (Qeq_bool x 0%Q).

(** Comparisons with [NaN] are false. *)
Definition ltb (a b : num) : bool :=
  match a, b with
  | Num x, Num y => Qltb x y
  | _, _ => false
  end.

Definition leb (a b : num) : bool :=
  match a, b with
  | Num x, Num y => Qleb x y
  | _, _ => false
  end.

Definition gtb (a b : num) : bool := ltb b a.
Definition geb (a b : num) : bool := leb b a.

(** ToBoolean on numbers. *)
Definition truthy (a : num) : bool :=
  match a with
  | Num x => Qnonzero x
  | NaN => false
  end.

(** [a || b] on numbers. *)
Definition or (a b : num) : num := if truthy a then a else b.

(** [o || d] for a numeric property that may be unset. *)
Definition or_default (o : option Q) (d : Q) : Q :=
  match o with
  | Some q => if Qnonzero q then q else d
  | None => d
  end.

Definition Qmin2 (x y : Q) : Q := if Qle_bool x y then x else y.
Definition Qmax2 (x y : Q) : Q := if Qle_bool x y then y else x.

Definition Math_min : num -> num -> num := lift2 Qmin2.
Definition Math_max : num -> num -> num := lift2 Qmax2.

(** [Math.round]: the nearest integer, ties towards plus infinity. *)
Definition Qround (x : Q) : Z := Qfloor (x + (1 # 2))%Q.

Definition Math_round (a : num) : num :=
  match a with
  | Num x => Num (inject_Z (Qround x))
  | NaN => NaN
  end.

Definition Math_abs (a : num) : num :=
  match a with
  | Num x => Num (Qabs x)
  | NaN => NaN
  end.

(** [Number(x.toFixed(2))]: two decimals, ties away from zero. *)
Definition QtoFixed2 (x : Q) : Q :=
  if Qltb x 0%Q
  then (- (inject_Z (Qround (- x * 100)) / 100))%Q
  else (inject_Z (Qround (x * 100)) / 100)%Q.

Definition toFixed2 (a : num) : num :=
  match a with
  | Num x => Num (QtoFixed2 x)
  | NaN => NaN
  end.

(** *** Strings *)

Definition lower (c : ascii) : ascii :=
  let n := nat_of_ascii c in
  if (65 <=? n)%nat && (n <=? 90)%nat then ascii_of_nat (n + 32) else c.

(** [s.toLowerCase()], on the ASCII letters. *)
Fixpoint toLowerCase (s : string) : string :=
  match s with
  | EmptyString => EmptyString
  | String c r => String (lower c) (toLowerCase r)
  end.

(** [s.includes(sub)]. *)
Fixpoint includes (s sub : string) : bool :=
  String.prefix sub s ||
  match s with
  | EmptyString => false
  | String _ r => includes r sub
  end.

(** ToBoolean on a string that may be unset. *)
Definition str_truthy (o : option string) : bool :=
  match o with
  | Some s => negb (String.eqb s "")
  | None => false
  end.

(** [o || d] for a string property. *)
Definition str_or (o : option string) (d : string) : string :=
  match o with
  | Some s => if String.eqb s "" then d else s
  | None => d
  end.

(** [text.indexOf(c)] and [text.lastIndexOf(c)] for a one-character needle;
    [None] stands for -1. *)
Fixpoint indexOf (c : ascii) (s : string) : option nat :=
  match s with
  | EmptyString => None
  | String d r =>
      if Ascii.eqb c d then Some 0%nat
      else match indexOf c r with
           | Some i => Some (S i)
           | None => None
           end
  end.

Fixpoint lastIndexOf (c : ascii) (s : string) : option nat :=
  match s with
  | EmptyString => None
  | String d r =>
      match lastIndexOf c r with
      | Some i => Some (S i)
      | None => if Ascii.eqb c d then Some 0%nat else None
      end
  end.

(** [text.slice(from, to)] for non-negative indices. *)
Definition slice (s : string) (from to : nat) : string :=
  String.substring from (to - from) s.

(** *** Property lookup on an object literal *)

(** The names every object literal inherits from [Object.prototype]; each
    is bound to a function or an object, hence truthy, and none of them has
    the properties of a table entry. *)
Definition Object_prototype_keys : list string :=
  [ "constructor"; "__defineGetter__"; "__defineSetter__"; "hasOwnProperty";
    "__lookupGetter__"; "__lookupSetter__"; "isPrototypeOf";
    "propertyIsEnumerable"; "toString"; "valueOf"; "__proto__";
    "toLocaleString" ].

Definition inherited (key : string) : bool :=
  existsb (String.eqb key) Object_prototype_keys.

Inductive prop (A : Type) : Type :=
| Own (a : A)        (* an own property of the literal *)
| Proto              (* a member of Object.prototype *)
| Undefined.
Arguments Own {A} a.
Arguments Proto {A}.
Arguments Undefined {A}.

(** [obj[key]]. *)
Definition get {A : Type} (obj : gmap string A) (key : string) : prop A :=
  match obj !! key with
  | Some a => Own a
  | None => if inherited key then Proto else Undefined
  end.

End JS.

Declare Scope js_scope.
Delimit Scope js_scope with js.
Bind Scope js_scope with JS.num.
Infix "+" := JS.add : js_scope.
Infix "-" := JS.sub : js_scope.
Infix "*" := JS.mul : js_scope.
Infix "/" := JS.div : js_scope.
Infix "<?" := JS.ltb : js_scope.
Infix "<=?" := JS.leb : js_scope.
Infix ">?" := JS.gtb : js_scope.
Infix ">=?" := JS.geb : js_scope.
Coercion JS.Num : Q >-> JS.num.

(* ===================================================================== *)
(** ** Data model (models/Employee.js, models/Action.js)                   *)
(* ===================================================================== *)

(** [marketRangeSchema]. *)
Module Range.
Record t : Type := Build { min : Q; mid : Q; max : Q }.
End Range.

(** What [MARKET_SALARY_RANGES[role] || MARKET_SALARY_RANGES["unknown"]]
    evaluates to: a table entry, or a member of [Object.prototype], whose
    [min], [mid] and [max] are [undefined]. *)
Inductive RangeRef : Type :=
| Entry (r : Range.t)
| NotAnEntry.

Definition range_min (m : RangeRef) : JS.num :=
  match m with Entry r => JS.Num (Range.min r) | NotAnEntry => JS.NaN end.
Definition range_mid (m : RangeRef) : JS.num :=
  match m with Entry r => JS.Num (Range.mid r) | NotAnEntry => JS.NaN end.
Definition range_max (m : RangeRef) : JS.num :=
  match m with Entry r => JS.Num (Range.max r) | NotAnEntry => JS.NaN end.

(** [salaryFactorsSchema]. *)
Record Factors : Type := {
  baseSalary : JS.num;
  perfMultiplier : JS.num;
  revenueBasedSalary : JS.num;
  budgetFactor : JS.num
}.

(** [suggestionSchema]; every path is optional. *)
Record Suggestion : Type := {
  action : option string;
  confidence : option JS.num;
  reason : option string;
  recommended_change_percent : option JS.num;
  currentSalary : option JS.num;
  suggestedSalary : option JS.num;
  salaryDifference : option JS.num;
  salaryDifferencePercent : option JS.num;
  salaryReason : option string;
  marketSalaryRange : option RangeRef;
  salaryFactors : option Factors;
  estimatedRevenue : option JS.num;
  profit : option JS.num;
  using_ : option string
}.

(** [performance] is [Mixed]: a number, a string, or anything else
    (unset, null, a boolean, an object). *)
Inductive Mixed : Type :=
| MNumber (q : Q)
| MString (s : string)
| MOther.

(** [employeeSchema]. *)
Record Employee : Type := {
  ssid : string;
  name : option string;
  performance : Mixed;
  experience : option Q;
  role : option string;
  salary : option Q;
  revenue : option Q;
  status : string;
  suggestion : option Suggestion;
  lastAnalyzed : option Z;
  lastPromotedAt : option Z;
  terminatedAt : option Z
}.

(** The [details] payload of an action record. *)
Record Details : Type := {
  effect : option string;
  d_previousSalary : option Q;
  d_newSalary : option Q;
  d_changePercent : option Q;
  d_salary : option Q;
  previousStatus : option string;
  newStatus : option string
}.

(** [actionSchema]. *)
Record ActionRecord : Type := {
  a_ssid : string;
  a_action : string;
  note : option string;
  details : Details;
  appliedAt : Z
}.

(* ===================================================================== *)
(** ** ai.js: market bands and the heuristic scorer                        *)
(* ===================================================================== *)

Definition MARKET_SALARY_RANGES : gmap string Range.t :=
  list_to_map
    [ ("intern", Range.Build 180000 300000 480000);
      ("junior", Range.Build 360000 500000 700000);
      ("developer", Range.Build 600000 1000000 1800000);
      ("engineer", Range.Build 600000 1000000 1800000);
      ("senior developer", Range.Build 1200000 1800000 2800000);
      ("senior engineer", Range.Build 1200000 1800000 2800000);
      ("lead", Range.Build 1500000 2200000 3500000);
      ("manager", Range.Build 1200000 1800000 3000000);
      ("senior manager", Range.Build 1800000 2500000 4000000);
      ("director", Range.Build 2500000 4000000 6000000);
      ("sales", Range.Build 400000 800000 1500000);
      ("unknown", Range.Build 400000 700000 1200000) ].

(** [MARKET_SALARY_RANGES[role] || MARKET_SALARY_RANGES["unknown"]]. *)
Definition marketRangeOf (role : string) : RangeRef :=
  match JS.get MARKET_SALARY_RANGES role with
  | JS.Own r => Entry r
  | JS.Proto => NotAnEntry
  | JS.Undefined =>
      match JS.get MARKET_SALARY_RANGES "unknown" with
      | JS.Own r => Entry r
      | _ => NotAnEntry
      end
  end.

(** The block that turns [emp.performance] into [perfScore]; it opens both
    [calculateSuggestedSalary] and [heuristicAnalysis]. *)
Definition perfScoreOf (perfRaw : Mixed) : Q :=
  match perfRaw with
  | MNumber n => JS.Qmax2 0 (JS.Qmin2 10 n)
  | MString raw =>
      let s := JS.toLowerCase raw in
      if JS.includes s "excel" || JS.includes s "ex" then 9
      else if JS.includes s "good" then 7
      else if JS.includes s "avg" || JS.includes s "average" then 5
      else if JS.includes s "poor" || JS.includes s "low" then 2
      else 5
  | MOther => 5
  end%Q.

(** ToBoolean on the budget argument. *)
Definition budget_truthy (budget : option Q) : bool :=
  match budget with
  | Some b => JS.Qnonzero b
  | None => false
  end.

(** The object [calculateSuggestedSalary] returns. *)
Module Analysis.
Record t : Type := Build {
  suggestedSalary : JS.num;
  salaryDifference : JS.num;
  salaryDifferencePercent : JS.num;
  marketRange : RangeRef;
  factors : Factors
}.
End Analysis.

Definition count (n : nat) : Q := inject_Z (Z.of_nat n).

(** Base salary from the market range, by experience: 0-2 years in the
    min-mid range, 3-5 years in the mid range, 6+ years in the mid-max range. *)
Definition baseSalaryOf (marketRange : RangeRef) (experience : Q) : JS.num :=
  let rmin := range_min marketRange in
  let rmid := range_mid marketRange in
  let rmax := range_max marketRange in
  if JS.Qleb experience 2 then
    (rmin + (rmid - rmin) * JS.Num (experience / 2))%js
  else if JS.Qleb experience 5 then
    (rmid + (rmax - rmid) * JS.Num ((experience - 2) / 3) * JS.Num 0.5)%js
  else
    (rmid + (rmax - rmid) * JS.Num (JS.Qmin2 1 ((experience - 2) / 8)))%js.

(** Performance multiplier, 0.8x to 1.2x. *)
Definition perfMultiplierOf (perfScore : Q) : Q :=
  (0.8 + (perfScore / 10) * 0.4)%Q.

(** Revenue-based adjustment, with [profitMarginTarget = 0.4]. *)
Definition revenueBasedSalaryOf (revenue : Q) : Q :=
  if JS.Qltb 0 revenue then (revenue * (1 - 0.4))%Q else 0%Q.

(** Budget constraint factor. *)
Definition budgetFactorOf
    (budget : option Q) (totalEmployees : nat) (baseSalary : JS.num) : Q :=
  match budget with
  | Some b =>
      if JS.Qnonzero b && (0 <? totalEmployees)%nat then
        let avgBudgetPerEmployee := JS.Num (b / count totalEmployees) in
        if (avgBudgetPerEmployee <? baseSalary * JS.Num 0.8)%js then 0.85%Q
        else if (avgBudgetPerEmployee >? baseSalary * JS.Num 1.5)%js then 1.1%Q
        else 1%Q
      else 1%Q
  | None => 1%Q
  end.

(** Combine all factors, apply the budget constraint, round to the nearest
    1000 and keep within the market bounds. *)
Definition combineFactors
    (marketRange : RangeRef) (baseSalary : JS.num)
    (perfMultiplier revenueBasedSalary budgetFactor : Q) : JS.num :=
  let suggestedSalary : JS.num :=
    if JS.Qltb 0 revenueBasedSalary then
      (baseSalary * JS.Num perfMultiplier * JS.Num 0.4
       + JS.Num (revenueBasedSalary * 0.6))%js
    else (baseSalary * JS.Num perfMultiplier)%js in
  let suggestedSalary := (suggestedSalary * JS.Num budgetFactor)%js in
  let suggestedSalary :=
    (JS.Math_round (suggestedSalary / JS.Num 1000) * JS.Num 1000)%js in
  JS.Math_max (range_min marketRange * JS.Num 0.9)%js
    (JS.Math_min (range_max marketRange * JS.Num 1.2)%js suggestedSalary).

Definition calculateSuggestedSalary
    (emp : Employee) (budget : option Q) (totalEmployees : nat) : Analysis.t :=
  let role := JS.toLowerCase (JS.str_or (role emp) "unknown") in
  let perfScore := perfScoreOf (performance emp) in
  let experience := JS.or_default (experience emp) 0 in
  let currentSalary := JS.or_default (salary emp) 0 in
  let revenue := JS.or_default (revenue emp) 0 in
  let marketRange := marketRangeOf role in
  let baseSalary := baseSalaryOf marketRange experience in
  let perfMultiplier := perfMultiplierOf perfScore in
  let revenueBasedSalary := revenueBasedSalaryOf revenue in
  let budgetFactor := budgetFactorOf budget totalEmployees baseSalary in
  let suggestedSalary :=
    combineFactors marketRange baseSalary perfMultiplier revenueBasedSalary
      budgetFactor in
  let salaryDifference : JS.num :=
    if JS.Qltb 0 currentSalary then (suggestedSalary - JS.Num currentSalary)%js
    else JS.Num 0 in
  let salaryDifferencePercent : JS.num :=
    if JS.Qltb 0 currentSalary then
      JS.Math_round (salaryDifference / JS.Num currentSalary * JS.Num 100)%js
    else JS.Num 0 in
  {| Analysis.suggestedSalary := JS.Math_round suggestedSalary;
     Analysis.salaryDifference := salaryDifference;
     Analysis.salaryDifferencePercent := salaryDifferencePercent;
     Analysis.marketRange := marketRange;
     Analysis.factors :=
       {| baseSalary := JS.Math_round baseSalary;
          perfMultiplier := JS.toFixed2 (JS.Num perfMultiplier);
          revenueBasedSalary := JS.Math_round (JS.Num revenueBasedSalary);
          budgetFactor := JS.toFixed2 (JS.Num budgetFactor) |} |}.

(** Estimated yearly revenue contribution by role ([roleRevenue]). *)
Definition roleRevenue : gmap string Q :=
  list_to_map
    [ ("engineer", 2000000%Q);
      ("developer", 2000000%Q);
      ("senior developer", 3500000%Q);
      ("manager", 4000000%Q);
      ("sales", 5000000%Q);
      ("intern", 200000%Q);
      ("unknown", 1200000%Q) ].

(** [emp.revenue || roleRevenue[role] || roleRevenue["unknown"]]; a member of
    [Object.prototype] is truthy and is not a number. *)
Definition estimatedRevenueOf (emp : Employee) (role : string) : JS.num :=
  let own := JS.or_default (revenue emp) 0 in
  if JS.Qnonzero own then JS.Num own
  else
    let fallback :=
      match JS.get roleRevenue "unknown" with
      | JS.Own q => JS.Num q
      | _ => JS.NaN
      end in
    match JS.get roleRevenue role with
    | JS.Own q => JS.or (JS.Num q) fallback
    | JS.Proto => JS.NaN
    | JS.Undefined => fallback
    end.

(** The decision thresholds of [heuristicAnalysis]. *)
Definition decide_action
    (perfScore : Q) (profit estimatedSalary : JS.num) (budget : option Q) : string :=
  if JS.Qleb perfScore 3 || (profit <? JS.Num (-0.2) * estimatedSalary)%js
  then "FIRE"
  else if JS.Qleb 8 perfScore
          && (profit >? JS.Num 0.2 * estimatedSalary)%js
          && (negb (budget_truthy budget)
              || match budget with
                 | Some b => (JS.Num b >? estimatedSalary * JS.Num 0.1)%js
                 | None => false
                 end)
  then "PROMOTE"
  else if (profit <? JS.Num 0.05 * estimatedSalary)%js
          || (budget_truthy budget
              && match budget with Some b => JS.Qltb b 0 | None => false end)
  then "DECREASE_SALARY"
  else "NO_CHANGE".

(** A parsed JSON text: [null], a primitive, or an object read through the
    paths of [suggestionSchema]. *)
Inductive Json : Type :=
| JNull
| JPrimitive
| JObject (o : Suggestion).

(** What the chat-completion request comes back with. *)
Inductive Response : Type :=
| Rejected                          (* axios.post rejects, or resp.data is malformed *)
| Content (text : option string).   (* resp.data.choices?.[0]?.message?.content *)

(** The outcome of an [async] call. *)
Inductive Outcome (A : Type) : Type :=
| Returns (a : A)
| Throws.
Arguments Returns {A} a.
Arguments Throws {A}.

Definition num_truthy (o : option JS.num) : bool :=
  match o with
  | Some n => JS.truthy n
  | None => false
  end.

Definition q_truthy (o : option Q) : bool :=
  match o with
  | Some q => JS.Qnonzero q
  | None => false
  end.

(** [parsed.suggestedSalary && parsed.suggestedSalary < 10000]. *)
Definition tooLow (s : option JS.num) : bool :=
  num_truthy s
  && match s with
     | Some n => (n <? JS.Num 10000)%js
     | None => false
     end.

Definition marketNote : string := " (Salary calculated using market analysis)".

(** [text.slice(firstBrace, lastBrace + 1)] when both braces occur. *)
Definition jsonText (text : string) : string :=
  match JS.indexOf "{" text, JS.lastIndexOf "}" text with
  | Some firstBrace, Some lastBrace => JS.slice text firstBrace (lastBrace + 1)
  | _, _ => text
  end.

Module Result.
Record t : Type := Build {
  ssid : string;
  name : option string;
  role : option string;
  currentSalary : option Q;
  suggestion : Suggestion
}.
End Result.

Record Breakdown : Type := {
  FIRE : nat;
  PROMOTE : nat;
  DECREASE_SALARY : nat;
  NO_CHANGE : nat
}.

Module Summary.
Record t : Type := Build {
  totalEmployees : nat;
  companyBudget : option Q;
  totalCurrentSalaries : Q;
  totalSuggestedSalaries : Q;
  totalRevenue : Q;
  actionBreakdown : Breakdown;
  projectedSavings : Q;
  currentProfitMargin : Q;
  projectedProfitMargin : Q
}.
End Summary.

(** [r.suggestion.action === a]. *)
Definition action_is (a : string) (r : Result.t) : bool :=
  match action (Result.suggestion r) with
  | Some x => String.eqb x a
  | None => false
  end.

(** [r.suggestion.suggestedSalary || 0]. *)
Definition suggested_or_0 (r : Result.t) : Q :=
  match suggestedSalary (Result.suggestion r) with
  | Some (JS.Num q) => if JS.Qnonzero q then q else 0%Q
  | _ => 0%Q
  end.

Section Engine.

(** [Intl.NumberFormat("en-IN").format] and the template-literal rendering
    of a number: presentation only. *)
Variable formatINR : JS.num -> string.
Variable numberToString : Q -> string.

(** [process.env.OPENAI_API_KEY]. *)
Variable OPENAI_KEY : option string.

(** [JSON.parse]; [None] is a [SyntaxError]. *)
Variable JSON_parse : string -> option Json.

Definition heuristicAnalysis
    (emp : Employee) (budget : option Q) (totalEmployees : nat) : Suggestion :=
  let role := JS.toLowerCase (JS.str_or (role emp) "unknown") in
  let perfScore := perfScoreOf (performance emp) in
  let experience := JS.or_default (experience emp) 0 in
  let currentSalary := JS.or_default (salary emp) 0 in
  let marketRange := marketRangeOf role in
  let estimatedSalary := JS.or (JS.Num currentSalary) (range_mid marketRange) in
  let estimatedRevenue := estimatedRevenueOf emp role in
  let profit := (estimatedRevenue - estimatedSalary)%js in
  let profitPerSalary := (profit / JS.Math_max (JS.Num 1) estimatedSalary)%js in
  let budgetFactor : Q :=
    match budget with
    | Some b => if JS.Qnonzero b then (if JS.Qltb 0 b then 1 else 0.5) else 1
    | None => 1
    end%Q in
  let score :=
    ((profitPerSalary * JS.Num 5
      + JS.Num ((perfScore - 5) * 0.5)
      + JS.Num (JS.Qmin2 experience 10 * 0.1)) * JS.Num budgetFactor)%js in
  let action := decide_action perfScore profit estimatedSalary budget in
  let confidence :=
    JS.Math_min (JS.Num 0.95)
      (JS.Math_max (JS.Num 0.2) (JS.Num 0.5 + JS.Math_abs score / JS.Num 10)%js) in
  let salaryAnalysis := calculateSuggestedSalary emp budget totalEmployees in
  {| action := Some action;
     confidence := Some (JS.toFixed2 confidence);
     reason :=
       Some ("Heuristic: revenue=Rs " +:+ formatINR estimatedRevenue
             +:+ ", salary=Rs " +:+ formatINR estimatedSalary
             +:+ ", profit=Rs " +:+ formatINR profit
             +:+ ", perf=" +:+ numberToString perfScore
             +:+ "/10, exp=" +:+ numberToString experience
             +:+ " yrs, budget="
             +:+ match budget with
                 | Some b =>
                     if JS.Qnonzero b then "Rs " +:+ formatINR (JS.Num b) else "N/A"
                 | None => "N/A"
                 end);
     recommended_change_percent :=
       Some (JS.Num (if String.eqb action "PROMOTE" then 10
                     else if String.eqb action "DECREASE_SALARY" then -10
                     else 0)%Q);
     currentSalary := Some (JS.or (JS.Num currentSalary) estimatedSalary);
     suggestedSalary := Some (Analysis.suggestedSalary salaryAnalysis);
     salaryDifference := Some (Analysis.salaryDifference salaryAnalysis);
     salaryDifferencePercent := Some (Analysis.salaryDifferencePercent salaryAnalysis);
     salaryReason := None;
     marketSalaryRange := Some (Analysis.marketRange salaryAnalysis);
     salaryFactors := Some (Analysis.factors salaryAnalysis);
     estimatedRevenue := Some estimatedRevenue;
     profit := Some profit;
     using_ := None |}.

(** [callOpenAI], from the point where the request has come back; the two
    prompts only feed the request. *)
Definition callOpenAI
    (resp : Response) (employee : Employee) (budget : option Q)
    (totalEmployees : nat) : Outcome Json :=
  let salaryAnalysis := calculateSuggestedSalary employee budget totalEmployees in
  let marketRange :=
    marketRangeOf (JS.toLowerCase (JS.str_or (role employee) "unknown")) in
  match resp with
  | Rejected => Throws
  | Content text =>
      if negb (JS.str_truthy text) then Throws   (* Empty response from OpenAI *)
      else
        match JSON_parse (jsonText (JS.str_or text "")) with
        | None => Throws                          (* SyntaxError *)
        | Some JNull => Throws                    (* TypeError: property of null *)
        | Some JPrimitive => Returns JPrimitive   (* property writes are dropped *)
        | Some (JObject parsed) =>
            let corrected := tooLow (suggestedSalary parsed) in
            let suggested1 :=
              if corrected then Some (Analysis.suggestedSalary salaryAnalysis)
              else suggestedSalary parsed in
            let salaryReason1 :=
              if corrected then
                Some (JS.str_or (salaryReason parsed) "" +:+ marketNote)
              else salaryReason parsed in
            let recompute := num_truthy suggested1 && q_truthy (salary employee) in
            let difference :=
              match suggested1, salary employee with
              | Some n, Some s => (n - JS.Num s)%js
              | _, _ => JS.NaN
              end in
            Returns (JObject
              {| action := action parsed;
                 confidence := confidence parsed;
                 reason := reason parsed;
                 recommended_change_percent := recommended_change_percent parsed;
                 currentSalary := Some (JS.Num (JS.or_default (salary employee) 0));
                 suggestedSalary := suggested1;
                 salaryDifference :=
                   if recompute then Some difference else salaryDifference parsed;
                 salaryDifferencePercent :=
                   if recompute then
                     match salary employee with
                     | Some s =>
                         Some (JS.Math_round (difference / JS.Num s * JS.Num 100)%js)
                     | None => salaryDifferencePercent parsed
                     end
                   else salaryDifferencePercent parsed;
                 salaryReason := salaryReason1;
                 marketSalaryRange := Some marketRange;
                 salaryFactors := salaryFactors parsed;
                 estimatedRevenue := estimatedRevenue parsed;
                 profit := profit parsed;
                 using_ := using_ parsed |})
        end
  end.

(** [{ ...s, using: tag }]. *)
Definition tagged (s : Suggestion) (tag : string) : Suggestion :=
  {| action := action s;
     confidence := confidence s;
     reason := reason s;
     recommended_change_percent := recommended_change_percent s;
     currentSalary := currentSalary s;
     suggestedSalary := suggestedSalary s;
     salaryDifference := salaryDifference s;
     salaryDifferencePercent := salaryDifferencePercent s;
     salaryReason := salaryReason s;
     marketSalaryRange := marketSalaryRange s;
     salaryFactors := salaryFactors s;
     estimatedRevenue := estimatedRevenue s;
     profit := profit s;
     using_ := Some tag |}.

Definition analyzeEmployee
    (resp : Response) (employee : Employee) (budget : option Q)
    (totalEmployees : nat) : Suggestion :=
  let heuristic := heuristicAnalysis employee budget totalEmployees in
  if negb (JS.str_truthy OPENAI_KEY) then tagged heuristic "heuristic"
  else
    match callOpenAI resp employee budget totalEmployees with
    | Returns (JObject aiResp) =>
        if JS.str_truthy (action aiResp) then tagged aiResp "openai"
        else tagged heuristic "heuristic"
    | Returns _ => tagged heuristic "heuristic"
    | Throws => tagged heuristic "heuristic"      (* the catch block *)
    end.

(** The [for ... of] loop of [analyzeAllEmployees]; [service i] answers the
    request made for the employee at position [i]. *)
Fixpoint analyzeLoop
    (service : nat -> Response) (i : nat) (employees : list Employee)
    (budget : option Q) (totalEmployees : nat) : list Result.t :=
  match employees with
  | [] => []
  | emp :: rest =>
      let analysis := analyzeEmployee (service i) emp budget totalEmployees in
      {| Result.ssid := ssid emp;
         Result.name := name emp;
         Result.role := role emp;
         Result.currentSalary := salary emp;
         Result.suggestion := analysis |}
      :: analyzeLoop service (S i) rest budget totalEmployees
  end.

Definition margin (totalSalaries totalRevenue : Q) : Q :=
  if JS.Qltb 0 totalRevenue
  then inject_Z (JS.Qround ((1 - totalSalaries / totalRevenue) * 100))
  else 0%Q.

Definition analyzeAllEmployees
    (service : nat -> Response) (employees : list Employee) (budget : option Q)
    : list Result.t * Summary.t :=
  let totalEmployees := length employees in
  let results := analyzeLoop service 0 employees budget totalEmployees in
  let totalCurrentSalaries :=
    fold_left (fun sum e => (sum + JS.or_default (salary e) 0)%Q) employees 0%Q in
  let totalSuggestedSalaries :=
    fold_left (fun sum r => (sum + suggested_or_0 r)%Q) results 0%Q in
  let totalRevenue :=
    fold_left (fun sum e => (sum + JS.or_default (revenue e) 0)%Q) employees 0%Q in
  (results,
   {| Summary.totalEmployees := totalEmployees;
      Summary.companyBudget := budget;
      Summary.totalCurrentSalaries := totalCurrentSalaries;
      Summary.totalSuggestedSalaries := totalSuggestedSalaries;
      Summary.totalRevenue := totalRevenue;
      Summary.actionBreakdown :=
        {| FIRE := length (List.filter (action_is "FIRE") results);
           PROMOTE := length (List.filter (action_is "PROMOTE") results);
           DECREASE_SALARY :=
             length (List.filter (action_is "DECREASE_SALARY") results);
           NO_CHANGE := length (List.filter (action_is "NO_CHANGE") results) |};
      Summary.projectedSavings := (totalCurrentSalaries - totalSuggestedSalaries)%Q;
      Summary.currentProfitMargin := margin totalCurrentSalaries totalRevenue;
      Summary.projectedProfitMargin := margin totalSuggestedSalaries totalRevenue |}).

End Engine.

(* ===================================================================== *)
(** ** routes.js: the employee store and the action state machine          *)
(* ===================================================================== *)

(** The two collections; [ssid] is a unique index, and a document is kept
    under its [ssid]. *)
Record Db : Type := {
  employees : gmap string Employee;
  actions : list ActionRecord
}.

(** An employee object of a request body; a key that is left out is [None]. *)
Record EmployeeInput : Type := {
  in_ssid : option string;
  in_name : option string;
  in_performance : option Mixed;
  in_experience : option Q;
  in_role : option string;
  in_salary : option Q;
  in_revenue : option Q;
  in_status : option string
}.

(** The result of a route: an HTTP error status, or success with a payload. *)
Inductive Reply (A : Type) : Type :=
| Status400 (error : string)
| Status404 (error : string)
| Ok (a : A).
Arguments Status400 {A} error.
Arguments Status404 {A} error.
Arguments Ok {A} a.

Definition succeeded {A : Type} (r : Reply A) : bool :=
  match r with
  | Ok _ => true
  | _ => false
  end.

(** [$set] keeps the stored value of a key the update leaves out. *)
Definition set_or_keep {A : Type} (new old : option A) : option A :=
  match new with
  | Some _ => new
  | None => old
  end.

(** [Employee.findOneAndUpdate({ ssid }, { $set: ... }, { upsert: true })]
    for the core fields and a status. *)
Definition upsertDoc
    (prior : option Employee) (id : string) (body : EmployeeInput)
    (newStatus : string) : Employee :=
  {| ssid := id;
     name := set_or_keep (in_name body) (prior ≫= name);
     performance :=
       match in_performance body with
       | Some m => m
       | None => from_option performance MOther prior
       end;
     experience := set_or_keep (in_experience body) (prior ≫= experience);
     role := set_or_keep (in_role body) (prior ≫= role);
     salary := set_or_keep (in_salary body) (prior ≫= salary);
     revenue := set_or_keep (in_revenue body) (prior ≫= revenue);
     status := newStatus;
     suggestion := prior ≫= suggestion;
     lastAnalyzed := prior ≫= lastAnalyzed;
     lastPromotedAt := prior ≫= lastPromotedAt;
     terminatedAt := prior ≫= terminatedAt |}.

(** POST /employees. *)
Definition postEmployee (db : Db) (body : EmployeeInput) : Db * Reply Employee :=
  match in_ssid body with
  | Some id =>
      if String.eqb id "" then (db, Status400 "ssid is required")
      else
        let emp := upsertDoc (employees db !! id) id body "ACTIVE" in
        ({| employees := <[id := emp]> (employees db); actions := actions db |},
         Ok emp)
  | None => (db, Status400 "ssid is required")
  end.

(** The loop of POST /employees/bulk; an entry without [ssid] is skipped and
    reported. *)
Fixpoint bulkLoop
    (store : gmap string Employee) (body : list EmployeeInput)
    : gmap string Employee * list (option string) :=
  match body with
  | [] => (store, [])
  | emp :: rest =>
      if JS.str_truthy (in_ssid emp) then
        let id := JS.str_or (in_ssid emp) "" in
        let updated :=
          upsertDoc (store !! id) id emp (JS.str_or (in_status emp) "ACTIVE") in
        let '(store', results) := bulkLoop (<[id := updated]> store) rest in
        (store', Some id :: results)
      else
        let '(store', results) := bulkLoop store rest in
        (store', None :: results)
  end.

(** POST /employees/bulk, for a body that is an array. *)
Definition postBulk (db : Db) (body : list EmployeeInput)
    : Db * Reply (list (option string)) :=
  let '(store', results) := bulkLoop (employees db) body in
  ({| employees := store'; actions := actions db |}, Ok results).

(** [Employee.find(query)] with [query = { status: { $ne: "FIRED" } }] and,
    for a non-empty [ssids] array, [ssid: { $in: ssids }]. *)
Definition analyzeQuery (ssids : option (list string)) (e : Employee) : bool :=
  negb (String.eqb (status e) "FIRED")
  && match ssids with
     | Some (_ :: _ as l) => existsb (String.eqb (ssid e)) l
     | _ => true
     end.

Definition find (query : Employee -> bool) (store : gmap string Employee)
    : list Employee :=
  List.filter query (snd <$> map_to_list store).

(** [findOneAndUpdate({ ssid }, { $set: { suggestion, lastAnalyzed } })]:
    without [upsert], nothing happens when no document matches. *)
Definition saveSuggestion
    (now : Z) (store : gmap string Employee) (r : Result.t)
    : gmap string Employee :=
  match store !! Result.ssid r with
  | Some e =>
      <[Result.ssid r :=
          {| ssid := ssid e; name := name e; performance := performance e;
             experience := experience e; role := role e; salary := salary e;
             revenue := revenue e; status := status e;
             suggestion := Some (Result.suggestion r);
             lastAnalyzed := Some now;
             lastPromotedAt := lastPromotedAt e;
             terminatedAt := terminatedAt e |}]> store
  | None => store
  end.


(** The body of POST /action. *)
Record ActionInput : Type := {
  req_ssid : option string;
  req_action : option string;
  req_note : option string;
  req_changePercent : option Q
}.

Definition validActions : list string :=
  ["FIRE"; "PROMOTE"; "DECREASE_SALARY"; "NO_CHANGE"].

(** [emp.suggestion?.estimatedSalary]: [suggestionSchema] declares no such
    path, so the property is [undefined] on every stored suggestion. *)
Definition suggestion_estimatedSalary (s : option Suggestion) : option Q := None.

(** [action === "PROMOTE" ? 10 : action === "DECREASE_SALARY" ? -10 : 0]. *)
Definition defaultPercent (action : string) : Q :=
  (if String.eqb action "PROMOTE" then 10
   else if String.eqb action "DECREASE_SALARY" then -10
   else 0)%Q.

(** [changePercent !== undefined ? changePercent
     : emp.suggestion?.recommended_change_percent || (the default)]. *)
Definition salaryChangePercent
    (emp : Employee) (action : string) (changePercent : option Q) : Q :=
  match changePercent with
  | Some p => p
  | None =>
      match suggestion emp ≫= recommended_change_percent with
      | Some (JS.Num q) => if JS.Qnonzero q then q else defaultPercent action
      | _ => defaultPercent action
      end
  end.

(** [emp.salary || emp.suggestion?.estimatedSalary || 0]. *)
Definition previousSalary (emp : Employee) : Q :=
  JS.or_default (salary emp)
    (JS.or_default (suggestion_estimatedSalary (suggestion emp)) 0).

Definition noDetails : Details :=
  {| effect := None; d_previousSalary := None; d_newSalary := None;
     d_changePercent := None; d_salary := None;
     previousStatus := None; newStatus := None |}.

(** The [switch] of POST /action: the mutated document and [actionDetails]. *)
Definition transition
    (now : Z) (emp : Employee) (action : string) (percent : Q)
    : Employee * Details :=
  let previous := previousSalary emp in
  let raised := inject_Z (JS.Qround (previous * (1 + percent / 100))) in
  if String.eqb action "FIRE" then
    ({| ssid := ssid emp; name := name emp; performance := performance emp;
        experience := experience emp; role := role emp; salary := salary emp;
        revenue := revenue emp; status := "FIRED";
        suggestion := suggestion emp; lastAnalyzed := lastAnalyzed emp;
        lastPromotedAt := lastPromotedAt emp; terminatedAt := Some now |},
     {| effect := Some "Employee terminated"; d_previousSalary := None;
        d_newSalary := None; d_changePercent := None; d_salary := None;
        previousStatus := Some "ACTIVE"; newStatus := Some "FIRED" |})
  else if String.eqb action "PROMOTE" then
    ({| ssid := ssid emp; name := name emp; performance := performance emp;
        experience := experience emp; role := role emp; salary := Some raised;
        revenue := revenue emp; status := "ACTIVE";
        suggestion := suggestion emp; lastAnalyzed := lastAnalyzed emp;
        lastPromotedAt := Some now; terminatedAt := terminatedAt emp |},
     {| effect := Some "Salary increased"; d_previousSalary := Some previous;
        d_newSalary := Some raised; d_changePercent := Some percent;
        d_salary := None; previousStatus := None; newStatus := None |})
  else if String.eqb action "DECREASE_SALARY" then
    ({| ssid := ssid emp; name := name emp; performance := performance emp;
        experience := experience emp; role := role emp; salary := Some raised;
        revenue := revenue emp; status := "ACTIVE";
        suggestion := suggestion emp; lastAnalyzed := lastAnalyzed emp;
        lastPromotedAt := lastPromotedAt emp; terminatedAt := terminatedAt emp |},
     {| effect := Some "Salary decreased"; d_previousSalary := Some previous;
        d_newSalary := Some raised; d_changePercent := Some percent;
        d_salary := None; previousStatus := None; newStatus := None |})
  else if String.eqb action "NO_CHANGE" then
    ({| ssid := ssid emp; name := name emp; performance := performance emp;
        experience := experience emp; role := role emp; salary := salary emp;
        revenue := revenue emp; status := "ACTIVE";
        suggestion := suggestion emp; lastAnalyzed := lastAnalyzed emp;
        lastPromotedAt := lastPromotedAt emp; terminatedAt := terminatedAt emp |},
     {| effect := Some "No changes made"; d_previousSalary := None;
        d_newSalary := None; d_changePercent := None;
        d_salary := Some previous; previousStatus := None; newStatus := None |})
  else (emp, noDetails).

(** What the route answers on success. *)
Record Applied : Type := {
  applied : ActionRecord;
  employee : Employee;
  actionDetails : Details
}.

(** [details] as [actionSchema] stores it: the schema has no [salary] path. *)
Definition storedDetails (d : Details) : Details :=
  {| effect := effect d; d_previousSalary := d_previousSalary d;
     d_newSalary := d_newSalary d; d_changePercent := d_changePercent d;
     d_salary := None;
     previousStatus := previousStatus d; newStatus := newStatus d |}.

(** POST /action. *)
Definition applyAction (now : Z) (db : Db) (body : ActionInput)
    : Db * Reply Applied :=
  if negb (JS.str_truthy (req_ssid body)) || negb (JS.str_truthy (req_action body))
  then (db, Status400 "ssid and action are required")
  else
    let id := JS.str_or (req_ssid body) "" in
    let action := JS.str_or (req_action body) "" in
    if negb (existsb (String.eqb action) validActions)
    then (db, Status400
                "action must be one of: FIRE, PROMOTE, DECREASE_SALARY, NO_CHANGE")
    else
      match employees db !! id with
      | None => (db, Status404 "Employee not found")
      | Some emp =>
          let percent := salaryChangePercent emp action (req_changePercent body) in
          let '(emp', actionDetails) := transition now emp action percent in
          let actionRecord :=
            {| a_ssid := id; a_action := action;
               note := if JS.str_truthy (req_note body) then req_note body else None;
               details := storedDetails actionDetails;
               appliedAt := now |} in
          ({| employees := <[id := emp']> (employees db);
              actions := actions db ++ [actionRecord] |},
           Ok {| applied := actionRecord; employee := emp';
                 actionDetails := actionDetails |})
      end.

(** The four operations that write to the store. *)
Inductive Request : Type :=
| PostEmployee (body : EmployeeInput)
| PostBulk (body : list EmployeeInput)
| PostAnalyze (service : nat -> Response) (budget : option Q)
              (ssids : option (list string))
| PostAction (body : ActionInput).

Section Routes.

Variable formatINR : JS.num -> string.
Variable numberToString : Q -> string.
Variable OPENAI_KEY : option string.
Variable JSON_parse : string -> option Json.

(** POST /analyze. *)
Definition postAnalyze
    (service : nat -> Response) (now : Z) (db : Db)
    (budget : option Q) (ssids : option (list string))
    : Db * Reply (list Result.t * Summary.t) :=
  match budget with
  | None => (db, Status400 "budget is required (company's available budget)")
  | Some _ =>
      let found := find (analyzeQuery ssids) (employees db) in
      match found with
      | [] => (db, Status404 "No employees found to analyze")
      | _ =>
          let analysis :=
            analyzeAllEmployees formatINR numberToString OPENAI_KEY JSON_parse
              service found budget in
          ({| employees := fold_left (saveSuggestion now) (fst analysis) (employees db);
              actions := actions db |},
           Ok analysis)
      end
  end.

(** One request against the store, at clock reading [now]. *)
Definition handle (now : Z) (db : Db) (req : Request) : Db :=
  match req with
  | PostEmployee body => fst (postEmployee db body)
  | PostBulk body => fst (postBulk db body)
  | PostAnalyze service budget ssids => fst (postAnalyze service now db budget ssids)
  | PostAction body => fst (applyAction now db body)
  end.

(** The stores that the server can get into from the empty one. *)
Inductive reachable : Db -> Prop :=
| reachable_empty : reachable {| employees := ∅; actions := [] |}
| reachable_handle now db req :
    reachable db -> reachable (handle now db req).

End Routes.

(* ===================================================================== *)
(** ** The specification's reference definitions                           *)
(* ===================================================================== *)

(** These follow the wording of the specification, over plain rationals; the
    theorems below compare them with the code above. *)
Module Spec.

Definition unknownBand : Range.t := Range.Build 400000 700000 1200000.

(** The market band of the lowercased role, the "unknown" band by default. *)
Definition band (emp : Employee) : Range.t :=
  default unknownBand
    (MARKET_SALARY_RANGES !! JS.toLowerCase (default "unknown" (role emp))).

Definition clamp (lo hi x : Q) : Q :=
  if JS.Qltb x lo then lo else if JS.Qltb hi x then hi else x.

(** The qualitative labels, in priority order. *)
Definition labels : list (string * Q) :=
  [ ("excel", 9); ("ex", 9); ("good", 7); ("avg", 5); ("average", 5);
    ("poor", 2); ("low", 2) ]%Q.

Definition perfScore (emp : Employee) : Q :=
  match performance emp with
  | MNumber n => clamp 0 10 n
  | MString text =>
      match List.find (fun l => JS.includes (JS.toLowerCase text) (fst l)) labels with
      | Some l => snd l
      | None => 5%Q
      end
  | MOther => 5%Q
  end.

(** Linear interpolation from [a] to [b]. *)
Definition lerp (a b t : Q) : Q := (a + (b - a) * t)%Q.

Definition years (emp : Employee) : Q := default 0%Q (experience emp).

Definition baseSalary (emp : Employee) : Q :=
  let r := band emp in
  let e := years emp in
  if JS.Qleb e 2 then lerp (Range.min r) (Range.mid r) (e / 2)
  else if JS.Qleb e 5 then
    lerp (Range.mid r) (Range.mid r + 0.5 * (Range.max r - Range.mid r)) ((e - 2) / 3)
  else lerp (Range.mid r) (Range.max r) (JS.Qmin2 1 ((e - 2) / 8)).

Definition perfMultiplier (emp : Employee) : Q :=
  (0.8 + (perfScore emp / 10) * 0.4)%Q.

Definition marketPath (emp : Employee) : Q :=
  (baseSalary emp * perfMultiplier emp)%Q.

Definition blended (emp : Employee) : Q :=
  let revenue := default 0%Q (revenue emp) in
  if JS.Qltb 0 revenue
  then (0.4 * marketPath emp + 0.6 * (revenue * (1 - 0.4)))%Q
  else marketPath emp.

(** 1 by default; tight or generous only when a budget is present. *)
Definition budgetFactor (emp : Employee) (budget : option Q) (n : nat) : Q :=
  match budget with
  | None => 1%Q
  | Some b =>
      let average := (b / count n)%Q in
      if JS.Qltb average (0.8 * baseSalary emp) then 0.85%Q
      else if JS.Qltb (1.5 * baseSalary emp) average then 1.1%Q
      else 1%Q
  end.

Definition roundTo1000 (x : Q) : Q := (inject_Z (JS.Qround (x / 1000)) * 1000)%Q.

Definition suggestedSalary (emp : Employee) (budget : option Q) (n : nat) : Q :=
  let r := band emp in
  clamp (0.9 * Range.min r) (1.2 * Range.max r)
    (roundTo1000 (blended emp * budgetFactor emp budget n)).

(** A budget counts only when it is present and not zero. *)
Definition effectiveBudget (budget : option Q) : option Q :=
  match budget with
  | Some b => if JS.Qnonzero b then Some b else None
  | None => None
  end.

(** Estimated salary and revenue, defaulting when the field is unset. *)
Definition estimatedSalary (emp : Employee) : Q :=
  default (Range.mid (band emp)) (salary emp).

Definition tableRevenue (emp : Employee) : Q :=
  default 1200000%Q
    (roleRevenue !! JS.toLowerCase (default "unknown" (role emp))).

Definition estimatedRevenue (emp : Employee) : Q :=
  default (tableRevenue emp) (revenue emp).

(** The same, defaulting when the field is unset or zero. *)
Definition estimatedSalary0 (emp : Employee) : Q :=
  JS.or_default (salary emp) (Range.mid (band emp)).

Definition estimatedRevenue0 (emp : Employee) : Q :=
  JS.or_default (revenue emp) (tableRevenue emp).

(** The role names a property that object literals inherit. *)
Definition shadowed (emp : Employee) : bool :=
  JS.inherited (JS.toLowerCase (JS.str_or (role emp) "unknown")).

End Spec.

(* ===================================================================== *)
(** ** Auxiliary notions for the proofs                                    *)
(* ===================================================================== *)

(** The key under which the two tables are consulted. *)
Definition roleKey (emp : Employee) : string :=
  JS.toLowerCase (JS.str_or (role emp) "unknown").

(** The action of a result is one of the four that the breakdown counts. *)
Definition recognized (r : Result.t) : bool :=
  action_is "FIRE" r || action_is "PROMOTE" r
  || action_is "DECREASE_SALARY" r || action_is "NO_CHANGE" r.

(** Every document is stored under its own [ssid]. *)
Definition keyed (store : gmap string Employee) : Prop :=
  forall k e, store !! k = Some e -> ssid e = k.

(** A rational that is an integer. *)
Definition is_int (q : Q) : Prop := exists z, (q == inject_Z z)%Q.

(** What the proofs need of a table entry: the bounds [0.9 min] and [1.2 max]
    are ordered and integral, and the midpoint is positive. *)
Definition band_ok (r : Range.t) : bool :=
  Qle_bool (Range.min r * 0.9) (Range.max r * 1.2)
  && Qeq_bool (inject_Z (Qfloor (Range.min r * 0.9))) (Range.min r * 0.9)
  && Qeq_bool (inject_Z (Qfloor (Range.max r * 1.2))) (Range.max r * 1.2)
  && JS.Qltb 0 (Range.mid r).

(* ===================================================================== *)
(** ** Sample records                                                      *)
(* ===================================================================== *)

Definition blank (id : string) : Employee :=
  {| ssid := id; name := None; performance := MOther; experience := None;
     role := None; salary := None; revenue := None; status := "ACTIVE";
     suggestion := None; lastAnalyzed := None; lastPromotedAt := None;
     terminatedAt := None |}.

(** The engineer of the end-to-end scenario. *)
Definition engineer : Employee :=
  {| ssid := "e1"; name := Some "Asha"; performance := MNumber 9;
     experience := Some 6%Q; role := Some "engineer";
     salary := Some 1000000%Q; revenue := Some 3000000%Q; status := "ACTIVE";
     suggestion := None; lastAnalyzed := None; lastPromotedAt := None;
     terminatedAt := None |}.

(** An average engineer to whom a revenue of zero is attributed. *)
Definition idle_engineer : Employee :=
  {| ssid := "e2"; name := None; performance := MNumber 5;
     experience := Some 3%Q; role := Some "engineer";
     salary := Some 1000000%Q; revenue := Some 0%Q; status := "ACTIVE";
     suggestion := None; lastAnalyzed := None; lastPromotedAt := None;
     terminatedAt := None |}.

(** An employee whose role is spelled like a member of [Object.prototype]. *)
Definition constructor_role : Employee :=
  {| ssid := "e3"; name := None; performance := MNumber 5;
     experience := Some 3%Q; role := Some "constructor";
     salary := Some 1000000%Q; revenue := Some 3000000%Q; status := "ACTIVE";
     suggestion := None; lastAnalyzed := None; lastPromotedAt := None;
     terminatedAt := None |}.

(** An engineer rated "Poor". *)
Definition poor_engineer : Employee :=
  {| ssid := "e5"; name := None; performance := MString "Poor";
     experience := Some 3%Q; role := Some "engineer";
     salary := Some 1000000%Q; revenue := Some 3000000%Q; status := "ACTIVE";
     suggestion := None; lastAnalyzed := None; lastPromotedAt := None;
     terminatedAt := None |}.

(** A suggestion of the heuristic that recommends no change. *)
Definition keepSuggestion : Suggestion :=
  {| action := Some "NO_CHANGE"; confidence := Some (JS.Num 0.6); reason := None;
     recommended_change_percent := Some (JS.Num 0); currentSalary := None;
     suggestedSalary := Some (JS.Num 900000); salaryDifference := None;
     salaryDifferencePercent := None; salaryReason := None;
     marketSalaryRange := None; salaryFactors := None;
     estimatedRevenue := None; profit := None; using_ := Some "heuristic" |}.

(** An analyzed employee whose stored recommendation is 0 percent. *)
Definition reviewed : Employee :=
  {| ssid := "e6"; name := None; performance := MNumber 6;
     experience := Some 4%Q; role := Some "developer";
     salary := Some 1000000%Q; revenue := Some 1500000%Q; status := "ACTIVE";
     suggestion := Some keepSuggestion; lastAnalyzed := Some 100%Z;
     lastPromotedAt := None; terminatedAt := None |}.

(** An employee who has been fired. *)
Definition dismissed : Employee :=
  {| ssid := "e7"; name := None; performance := MNumber 2;
     experience := Some 1%Q; role := Some "junior";
     salary := Some 400000%Q; revenue := Some 100000%Q; status := "FIRED";
     suggestion := None; lastAnalyzed := None;
     lastPromotedAt := None; terminatedAt := Some 50%Z |}.

Definition sampleDb : Db :=
  {| employees := <["e1" := engineer]> (<["e7" := dismissed]> ∅); actions := [] |}.

(** A request body that registers an employee. *)
Definition hire (id role : string) (pay : Q) : EmployeeInput :=
  {| in_ssid := Some id; in_name := None; in_performance := Some (MNumber 6);
     in_experience := Some 3%Q; in_role := Some role; in_salary := Some pay;
     in_revenue := None; in_status := None |}.

Definition promoteRequest (id : string) (percent : option Q) : ActionInput :=
  {| req_ssid := Some id; req_action := Some "PROMOTE"; req_note := None;
     req_changePercent := percent |}.

Definition fireRequest (id : string) : ActionInput :=
  {| req_ssid := Some id; req_action := Some "FIRE"; req_note := None;
     req_changePercent := None |}.

(** An object without any of the schema's properties. *)
Definition emptyObject : Suggestion :=
  {| action := None; confidence := None; reason := None;
     recommended_change_percent := None; currentSalary := None;
     suggestedSalary := None; salaryDifference := None;
     salaryDifferencePercent := None; salaryReason := None;
     marketSalaryRange := None; salaryFactors := None;
     estimatedRevenue := None; profit := None; using_ := None |}.

(** [{ "action": "HOLD" }]: an action outside the four. *)
Definition holdPayload : Suggestion :=
  {| action := Some "HOLD"; confidence := None; reason := None;
     recommended_change_percent := None; currentSalary := None;
     suggestedSalary := None; salaryDifference := None;
     salaryDifferencePercent := None; salaryReason := None;
     marketSalaryRange := None; salaryFactors := None;
     estimatedRevenue := None; profit := None; using_ := None |}.

(** [{ "action": "PROMOTE", "suggestedSalary": 12, "salaryDifference": 5 }]:
    a salary answered in lakhs, with a difference of the service's own. *)
Definition lakhPayload : Suggestion :=
  {| action := Some "PROMOTE"; confidence := None; reason := None;
     recommended_change_percent := None; currentSalary := None;
     suggestedSalary := Some (JS.Num 12); salaryDifference := Some (JS.Num 5);
     salaryDifferencePercent := None; salaryReason := Some "fair";
     marketSalaryRange := None; salaryFactors := None;
     estimatedRevenue := None; profit := None; using_ := None |}.

(** A parser that reads every text as the given object, and one that rejects
    every text. *)
Definition parse_as (o : Suggestion) (_ : string) : option Json := Some (JObject o).
Definition parse_error (_ : string) : option Json := None.

(** A service that answers every request with the same text. *)
Definition always (text : string) (_ : nat) : Response := Content (Some text).

(** Stand-ins for the presentation functions. *)
Definition plain_format (_ : JS.num) : string := "".
Definition plain_number (_ : Q) : string := "".

(** Two employees are registered and the second one is fired. *)
Definition staffed : Db :=
  let serve := handle plain_format plain_number None parse_error in
  serve 2%Z
    (serve 1%Z
       (serve 0%Z {| employees := ∅; actions := [] |}
          (PostEmployee (hire "a" "engineer" 900000)))
       (PostEmployee (hire "b" "sales" 600000)))
    (PostAction (fireRequest "b")).

(* ===================================================================== *)
(** ** The specification's statements, as predicates on the code           *)
(* ===================================================================== *)

Module Stated.

(** The heuristic's suggested salary is the reference value. *)
Definition salary_is_reference
    (emp : Employee) (budget : option Q) (n : nat) : Prop :=
  exists q,
    Analysis.suggestedSalary (calculateSuggestedSalary emp budget n) = JS.Num q
    /\ (q == Spec.suggestedSalary emp budget n)%Q.

(** Performance at most 3, or profit below -20% of the estimated salary,
    the estimates defaulting when the field is unset. *)
Definition fire_condition (emp : Employee) : Prop :=
  (Spec.perfScore emp <= 3)%Q
  \/ (Spec.estimatedRevenue emp - Spec.estimatedSalary emp
      < -0.2 * Spec.estimatedSalary emp)%Q.

(** The same, the estimates defaulting when the field is unset or zero. *)
Definition fire_condition0 (emp : Employee) : Prop :=
  (Spec.perfScore emp <= 3)%Q
  \/ (Spec.estimatedRevenue0 emp - Spec.estimatedSalary0 emp
      < -0.2 * Spec.estimatedSalary0 emp)%Q.

(** The FIRE rule of the heuristic. *)
Definition fire_rule
    (formatINR : JS.num -> string) (numberToString : Q -> string)
    (emp : Employee) (budget : option Q) (n : nat) : Prop :=
  fire_condition emp ->
  action (heuristicAnalysis formatINR numberToString emp budget n) = Some "FIRE".

(** The ways in which the external path yields nothing usable: no
    credential, a failed request, an empty response, a text that does not
    parse, an object whose [action] is absent (or empty). *)
Inductive external_failure
    (OPENAI_KEY : option string) (JSON_parse : string -> option Json)
    : Response -> Prop :=
| no_credential resp :
    JS.str_truthy OPENAI_KEY = false ->
    external_failure OPENAI_KEY JSON_parse resp
| request_error :
    external_failure OPENAI_KEY JSON_parse Rejected
| empty_response text :
    JS.str_truthy text = false ->
    external_failure OPENAI_KEY JSON_parse (Content text)
| unparsable text :
    JSON_parse (jsonText text) = None ->
    external_failure OPENAI_KEY JSON_parse (Content (Some text))
| no_action text o :
    JSON_parse (jsonText text) = Some (JObject o) ->
    JS.str_truthy (action o) = false ->
    external_failure OPENAI_KEY JSON_parse (Content (Some text)).

(** The salary difference of [final] is the one computed from its suggested
    salary against the employee's current salary, read as 0 when unset; for
    an employee without a salary a difference of 0 also counts. *)
Definition difference_recomputed (emp : Employee) (final : Suggestion) : Prop :=
  exists s d,
    suggestedSalary final = Some (JS.Num s)
    /\ salaryDifference final = Some (JS.Num d)
    /\ ((d == s - JS.or_default (salary emp) 0)%Q
        \/ (q_truthy (salary emp) = false /\ (d == 0)%Q)).

(** The four counts add up to the number of employees analyzed. *)
Definition breakdown_total (summary : Summary.t) : Prop :=
  let b := Summary.actionBreakdown summary in
  (FIRE b + PROMOTE b + DECREASE_SALARY b + NO_CHANGE b)%nat
  = Summary.totalEmployees summary.

(** Without an override, the applied percent is the stored one. *)
Definition percent_from_suggestion (emp : Employee) (action : string) : Prop :=
  forall s q,
    suggestion emp = Some s ->
    recommended_change_percent s = Some (JS.Num q) ->
    salaryChangePercent emp action None = q.

(** A request leaves every fired employee fired. *)
Definition stays_fired (before after : Db) : Prop :=
  forall id e e',
    employees before !! id = Some e -> status e = "FIRED" ->
    employees after !! id = Some e' -> status e' = "FIRED".

End Stated.

(* ===================================================================== *)
(** ** Further notions used by the supplementary results                   *)
(* ===================================================================== *)

(** The shape of a table entry: min <= mid < max, and the two bounds
    [0.9 min] and [1.2 max] are multiples of 1000 above the sanity floor. *)
Definition band_shape (r : Range.t) : bool :=
  Qle_bool (Range.min r) (Range.mid r)
  && JS.Qltb (Range.mid r) (Range.max r)
  && Qeq_bool (inject_Z (Qfloor (Range.min r * 0.9 / 1000)) * 1000) (Range.min r * 0.9)
  && Qeq_bool (inject_Z (Qfloor (Range.max r * 1.2 / 1000)) * 1000) (Range.max r * 1.2)
  && Qle_bool 10000 (Range.min r * 0.9).

(** A rational that is a whole multiple of 1000. *)
Definition thousands (q : Q) : Prop := exists k : Z, (q == inject_Z k * 1000)%Q.

(** The record [emp] with another attributed revenue. *)
Definition with_revenue (emp : Employee) (r : Q) : Employee :=
  {| ssid := ssid emp; name := name emp; performance := performance emp;
     experience := experience emp; role := role emp; salary := salary emp;
     revenue := Some r; status := status emp; suggestion := suggestion emp;
     lastAnalyzed := lastAnalyzed emp; lastPromotedAt := lastPromotedAt emp;
     terminatedAt := terminatedAt emp |}.

(** The document [e] once [findOneAndUpdate] has set its suggestion and its
    analysis time. *)
Definition withSuggestion (now : Z) (e : Employee) (s : Suggestion) : Employee :=
  {| ssid := ssid e; name := name e; performance := performance e;
     experience := experience e; role := role e; salary := salary e;
     revenue := revenue e; status := status e;
     suggestion := Some s; lastAnalyzed := Some now;
     lastPromotedAt := lastPromotedAt e; terminatedAt := terminatedAt e |}.

(** GET /pending:
    [Employee.find({ suggestion: { $exists: true }, status: { $ne: "FIRED" } })]. *)
Definition pendingQuery (e : Employee) : bool :=
  match suggestion e with Some _ => true | None => false end
  && negb (String.eqb (status e) "FIRED").

Definition getPending (db : Db) : list Employee :=
  find pendingQuery (employees db).

(* ===================================================================== *)
(** ** The dashboard: per-employee decision and organisation totals        *)
(* ===================================================================== *)

Module Dashboard.

Local Open Scope Q_scope.

Inductive PerformanceBand := elite | strong | stable | risk.
Inductive ExperienceBand := principal | senior | mid | junior.
Inductive LocationCost := high | standard | low.
Inductive DecisionAction := increase | decrease | keep | fire.

Record Employee := {
  id : string;
  name : string;
  role : string;
  functionArea : string;
  positionLevel : string;
  tenureYears : Q;
  salary : Q;
  variableExpense : Q;
  revenueInfluence : Q;
  performance : PerformanceBand;
  experience : ExperienceBand;
  locationCost : LocationCost;
  automationReadiness : Q
}.

Definition performanceWeights (b : PerformanceBand) : Q :=
  match b with elite => 1 | strong => 0.82 | stable => 0.62 | risk => 0.32 end.

Definition experienceWeights (b : ExperienceBand) : Q :=
  match b with principal => 1 | senior => 0.85 | mid => 0.65 | junior => 0.45 end.

Definition locationCostPenalty (c : LocationCost) : Q :=
  match c with low => 0.02 | standard => 0.08 | high => 0.14 end.

Definition mockEmployees : list Employee :=
  [ {| id := "EMP-101"; name := "Ava Shah"; role := "Enterprise Account Executive";
       functionArea := "Revenue"; positionLevel := "IC6"; tenureYears := 4.5;
       salary := 14940000; variableExpense := 2656000;
       revenueInfluence := 51460000; performance := elite;
       experience := principal; locationCost := high;
       automationReadiness := 0.76 |};
    {| id := "EMP-145"; name := "Mateo Rivas"; role := "Customer Success Manager";
       functionArea := "Revenue"; positionLevel := "IC4"; tenureYears := 2.1;
       salary := 8715000; variableExpense := 2324000;
       revenueInfluence := 15770000; performance := stable;
       experience := mid; locationCost := standard;
       automationReadiness := 0.58 |};
    {| id := "EMP-167"; name := "Harper Lin"; role := "Senior ML Engineer";
       functionArea := "Product"; positionLevel := "IC5"; tenureYears := 3.8;
       salary := 17430000; variableExpense := 3735000;
       revenueInfluence := 42330000; performance := strong;
       experience := senior; locationCost := high;
       automationReadiness := 0.71 |};
    {| id := "EMP-204"; name := "Noah Patel"; role := "Financial Analyst";
       functionArea := "G&A"; positionLevel := "IC3"; tenureYears := 1.6;
       salary := 7636000; variableExpense := 996000;
       revenueInfluence := 7885000; performance := risk;
       experience := mid; locationCost := standard;
       automationReadiness := 0.41 |};
    {| id := "EMP-230"; name := "Imani Brooks"; role := "People Ops Lead";
       functionArea := "G&A"; positionLevel := "Mgr2"; tenureYears := 6.2;
       salary := 11454000; variableExpense := 2988000;
       revenueInfluence := 14110000; performance := strong;
       experience := senior; locationCost := low;
       automationReadiness := 0.65 |} ].

(** [clamp(value, min = 0, max = 1)] is
    [Math.min(Math.max(value, min), max)]. *)
Definition clamp (value min max : Q) : Q :=
  JS.Qmin2 (JS.Qmax2 value min) max.

(** [overrideSalary ?? employee.salary]: only a missing override falls back,
    an override of 0 is used. *)
Definition salaryOf (employee : Employee) (overrideSalary : option Q) : Q :=
  match overrideSalary with Some s => s | None => salary employee end.

Definition profitOf (employee : Employee) (salary : Q) : Q :=
  revenueInfluence employee - (salary + variableExpense employee).

Definition marginOf (employee : Employee) (salary : Q) : Q :=
  if Qeq_bool (revenueInfluence employee) 0 then 0
  else profitOf employee salary / revenueInfluence employee.

Definition compositeOf (employee : Employee) (salary : Q) : Q :=
  let normalizedProfit := clamp (0.5 + profitOf employee salary / 33200000) 0 1 in
  let marginScore := clamp (0.5 + marginOf employee salary / 0.5) 0 1 in
  let perfScore := performanceWeights (performance employee) in
  let xpScore := experienceWeights (experience employee) in
  let locationPenalty := locationCostPenalty (locationCost employee) in
  0.32 * perfScore + 0.24 * xpScore + 0.26 * normalizedProfit
  + 0.18 * (marginScore - locationPenalty).

(** The [if / else if] chain that picks the action; [keep] is the initial
    value. *)
Definition chooseAction (profit composite margin : Q) : DecisionAction :=
  if JS.Qltb profit (-2905000) || (JS.Qltb composite 0.35 && JS.Qltb margin 0)
  then fire
  else if JS.Qltb composite 0.55 || JS.Qltb margin 0.1 then decrease
  else if JS.Qltb 0.78 composite && JS.Qltb 1660000 profit then increase
  else keep.

Definition reasonMap (a : DecisionAction) : string :=
  match a with
  | increase =>
      "High profit capture and top-tier performance warrant an upside adjustment."
  | decrease =>
      "Profit conversion is lagging—optimize compensation or rebalance workload."
  | keep =>
      "Healthy profitability and aligned contribution—hold steady this cycle."
  | fire =>
      "Sustained negative profit plus low scores signal a necessary exit discussion."
  end.

Record Decision := {
  action : DecisionAction;
  reason : string;
  confidence : Q;
  automation : Q;
  profitability : Q;
  margin : Q
}.

Definition deriveDecision (employee : Employee) (overrideSalary : option Q)
  : Decision :=
  let salary := salaryOf employee overrideSalary in
  let profit := profitOf employee salary in
  let margin := marginOf employee salary in
  let composite := compositeOf employee salary in
  let action := chooseAction profit composite margin in
  {| action := action;
     reason := reasonMap action;
     confidence := clamp composite 0 1;
     automation := clamp (0.4 + automationReadiness employee * 0.6) 0 1;
     profitability := profit;
     margin := margin |}.

Record Totals := {
  atRisk : nat;
  totalSalary : Q;
  totalExpense : Q;
  totalRevenue : Q;
  netProfit : Q
}.

(** The callback of [reduce] in [orgSummary]. *)
Definition addEmployee (acc : Totals) (emp : Employee) : Totals :=
  let totalCost := salary emp + variableExpense emp in
  let profit := revenueInfluence emp - totalCost in
  {| atRisk := if JS.Qltb profit 0 then S (atRisk acc) else atRisk acc;
     totalSalary := totalSalary acc + salary emp;
     totalExpense := totalExpense acc + totalCost;
     totalRevenue := totalRevenue acc + revenueInfluence emp;
     netProfit := netProfit acc + profit |}.

Definition noTotals : Totals :=
  {| atRisk := 0%nat; totalSalary := 0; totalExpense := 0; totalRevenue := 0;
     netProfit := 0 |}.

Definition totalsOf (employees : list Employee) : Totals :=
  fold_left addEmployee employees noTotals.

(** [{ ...totals, margin }]. *)
Definition orgMargin (totals : Totals) : Q :=
  if Qeq_bool (totalRevenue totals) 0 then 0
  else netProfit totals / totalRevenue totals.

Definition orgSummary : Totals * Q :=
  (totalsOf mockEmployees, orgMargin (totalsOf mockEmployees)).

(** The order in which the four actions are compared: [fire] is the most
    severe, [increase] the most favourable. *)
Definition rank (a : DecisionAction) : nat :=
  match a with fire => 0 | decrease => 1 | keep => 2 | increase => 3 end%nat.

End Dashboard.

(* ===================================================================== *)
(** ** Arithmetic on rationals                                             *)
(* ===================================================================== *)

Lemma Qltb_lt x y : JS.Qltb x y = true <-> (x < y)%Q.
Proof.
  unfold JS.Qltb. rewrite negb_true_iff, <- not_true_iff_false, Qle_bool_iff.
  split; [apply Qnot_le_lt | apply Qlt_not_le].
Qed.

Lemma Qltb_ge x y : JS.Qltb x y = false <-> (y <= x)%Q.
Proof.
  unfold JS.Qltb. rewrite negb_false_iff. apply Qle_bool_iff.
Qed.

Lemma Qleb_le x y : JS.Qleb x y = true <-> (x <= y)%Q.
Proof. apply Qle_bool_iff. Qed.

Lemma Qleb_gt x y : JS.Qleb x y = false <-> (y < x)%Q.
Proof.
  unfold JS.Qleb. rewrite <- not_true_iff_false, Qle_bool_iff.
  split; [apply Qnot_le_lt | apply Qlt_not_le].
Qed.

Lemma Qnonzero_true x : JS.Qnonzero x = true <-> ~ (x == 0)%Q.
Proof.
  unfold JS.Qnonzero. rewrite negb_true_iff, <- not_true_iff_false, Qeq_bool_iff.
  reflexivity.
Qed.

Lemma Qnonzero_false x : JS.Qnonzero x = false <-> (x == 0)%Q.
Proof.
  unfold JS.Qnonzero. rewrite negb_false_iff. apply Qeq_bool_iff.
Qed.

#[local] Instance Qltb_proper : Proper (Qeq ==> Qeq ==> eq) JS.Qltb.
Proof. intros x x' Hx y y' Hy. unfold JS.Qltb. now rewrite Hx, Hy. Qed.

#[local] Instance Qleb_proper : Proper (Qeq ==> Qeq ==> eq) JS.Qleb.
Proof. intros x x' Hx y y' Hy. unfold JS.Qleb. now rewrite Hx, Hy. Qed.

#[local] Instance Qmin2_proper : Proper (Qeq ==> Qeq ==> Qeq) JS.Qmin2.
Proof.
  intros x x' Hx y y' Hy. unfold JS.Qmin2. rewrite Hx, Hy.
  destruct (Qle_bool x' y'); first [assumption|reflexivity].
Qed.

#[local] Instance Qmax2_proper : Proper (Qeq ==> Qeq ==> Qeq) JS.Qmax2.
Proof.
  intros x x' Hx y y' Hy. unfold JS.Qmax2. rewrite Hx, Hy.
  destruct (Qle_bool x' y'); first [assumption|reflexivity].
Qed.

#[local] Instance Qround_proper : Proper (Qeq ==> eq) JS.Qround.
Proof. intros x x' Hx. unfold JS.Qround. now rewrite Hx. Qed.

#[local] Instance clamp_proper : Proper (Qeq ==> Qeq ==> Qeq ==> Qeq) Spec.clamp.
Proof.
  intros a a' Ha b b' Hb x x' Hx. unfold Spec.clamp.
  rewrite (Qltb_proper x x' Hx a a' Ha), (Qltb_proper b b' Hb x x' Hx).
  destruct (JS.Qltb x' a'); [assumption|].
  destruct (JS.Qltb b' x'); assumption.
Qed.

Lemma or_default_0 o : (JS.or_default o 0 == default 0 o)%Q.
Proof.
  destruct o as [q|]; simpl; [|reflexivity].
  destruct (JS.Qnonzero q) eqn:E; [reflexivity|].
  apply Qnonzero_false in E. now rewrite E.
Qed.

Lemma Qround_Z z : JS.Qround (inject_Z z) = z.
Proof.
  unfold JS.Qround. apply Z.le_antisymm.
  - assert (Qfloor (inject_Z z + (1 # 2)) < z + 1)%Z; [|lia].
    rewrite Zlt_Qlt. eapply Qle_lt_trans; [apply Qfloor_le|].
    rewrite inject_Z_plus. change (inject_Z 1) with 1%Q. lra.
  - rewrite <- (Qfloor_Z z) at 1. apply Qfloor_resp_le. lra.
Qed.

Lemma Qround_int q : is_int q -> (inject_Z (JS.Qround q) == q)%Q.
Proof.
  intros [z Hz]. rewrite (Qround_proper _ _ Hz), Qround_Z. symmetry. exact Hz.
Qed.

Lemma clamp_max_min lo hi x :
  (lo <= hi)%Q -> (JS.Qmax2 lo (JS.Qmin2 hi x) == Spec.clamp lo hi x)%Q.
Proof.
  intros H. unfold JS.Qmax2, JS.Qmin2, Spec.clamp.
  destruct (Qle_bool hi x) eqn:E1.
  - apply Qle_bool_iff in E1. destruct (Qle_bool lo hi) eqn:E2.
    + destruct (JS.Qltb x lo) eqn:E3; [apply Qltb_lt in E3; lra|].
      destruct (JS.Qltb hi x) eqn:E4; [reflexivity|]. apply Qltb_ge in E4. lra.
    + apply Qleb_gt in E2. lra.
  - apply Qleb_gt in E1. destruct (Qle_bool lo x) eqn:E2.
    + apply Qle_bool_iff in E2.
      destruct (JS.Qltb x lo) eqn:E3; [apply Qltb_lt in E3; lra|].
      destruct (JS.Qltb hi x) eqn:E4; [apply Qltb_lt in E4; lra|reflexivity].
    + apply Qleb_gt in E2.
      destruct (JS.Qltb x lo) eqn:E3; [reflexivity|]. apply Qltb_ge in E3. lra.
Qed.

Lemma clamp_int lo hi x : is_int lo -> is_int hi -> is_int x -> is_int (Spec.clamp lo hi x).
Proof.
  intros. unfold Spec.clamp. destruct (JS.Qltb x lo); [assumption|].
  destruct (JS.Qltb hi x); assumption.
Qed.

Lemma clamp_bounds lo hi x : (lo <= hi)%Q -> (lo <= Spec.clamp lo hi x <= hi)%Q.
Proof.
  intros H. unfold Spec.clamp.
  destruct (JS.Qltb x lo) eqn:E1; [lra|]. apply Qltb_ge in E1.
  destruct (JS.Qltb hi x) eqn:E2; [lra|]. apply Qltb_ge in E2. lra.
Qed.

Lemma band_key emp :
  Spec.band emp = default Spec.unknownBand (MARKET_SALARY_RANGES !! roleKey emp).
Proof.
  unfold Spec.band, roleKey, JS.str_or.
  destruct (role emp) as [s|]; [|reflexivity].
  destruct (String.eqb_spec s ""); [subst; vm_compute; reflexivity | reflexivity].
Qed.

Lemma marketRangeOf_band emp :
  Spec.shadowed emp = false -> marketRangeOf (roleKey emp) = Entry (Spec.band emp).
Proof.
  intros H. rewrite band_key. unfold marketRangeOf, JS.get.
  unfold Spec.shadowed in H. fold (roleKey emp) in H.
  destruct (MARKET_SALARY_RANGES !! roleKey emp); [reflexivity|].
  rewrite H. vm_compute. reflexivity.
Qed.

Lemma table_check :
  forallb (fun kr => band_ok (snd kr)) (map_to_list MARKET_SALARY_RANGES) = true.
Proof. vm_compute. reflexivity. Qed.

Lemma band_ok_band emp : band_ok (Spec.band emp) = true.
Proof.
  unfold Spec.band.
  destruct (MARKET_SALARY_RANGES !! _) as [r|] eqn:H; [|vm_compute; reflexivity].
  apply elem_of_map_to_list, list_elem_of_In in H.
  exact (proj1 (forallb_forall _ _) table_check _ H).
Qed.

Lemma band_facts emp :
  let r := Spec.band emp in
  (Range.min r * 0.9 <= Range.max r * 1.2)%Q
  /\ is_int (Range.min r * 0.9) /\ is_int (Range.max r * 1.2)
  /\ (0 < Range.mid r)%Q.
Proof.
  pose proof (band_ok_band emp) as H. unfold band_ok in H.
  rewrite !andb_true_iff in H. destruct H as [[[H1 H2] H3] H4].
  apply Qle_bool_iff in H1. apply Qeq_bool_iff in H2, H3. apply Qltb_lt in H4.
  repeat split; try assumption.
  - eexists. symmetry. exact H2.
  - eexists. symmetry. exact H3.
Qed.

Lemma perfScore_spec emp : (perfScoreOf (performance emp) == Spec.perfScore emp)%Q.
Proof.
  unfold perfScoreOf, Spec.perfScore. destruct (performance emp) as [n|s|].
  - apply clamp_max_min. lra.
  - cbn [List.find Spec.labels fst snd].
    repeat match goal with
           | |- context [JS.includes ?a ?b] => destruct (JS.includes a b)
           end; reflexivity.
  - reflexivity.
Qed.

Lemma baseSalary_spec emp :
  Spec.shadowed emp = false ->
  exists q,
    baseSalaryOf (marketRangeOf (roleKey emp)) (JS.or_default (experience emp) 0)
    = JS.Num q
    /\ (q == Spec.baseSalary emp)%Q.
Proof.
  intros Hs. rewrite (marketRangeOf_band emp Hs).
  unfold baseSalaryOf, Spec.baseSalary, Spec.years, Spec.lerp.
  cbn [range_min range_mid range_max JS.add JS.sub JS.mul JS.lift2].
  pose proof (or_default_0 (experience emp)) as He.
  set (e := JS.or_default (experience emp) 0) in *.
  set (e' := default 0%Q (experience emp)) in *.
  rewrite <- (Qleb_proper e e' He 2%Q 2%Q (Qeq_refl _)).
  rewrite <- (Qleb_proper e e' He 5%Q 5%Q (Qeq_refl _)).
  destruct (JS.Qleb e 2); [|destruct (JS.Qleb e 5)];
    (eexists; split; [reflexivity|]); rewrite He; try field.
Qed.

Lemma budgetFactor_spec emp budget n q :
  (1 <= n)%nat -> (q == Spec.baseSalary emp)%Q ->
  budgetFactorOf budget n (JS.Num q)
  = Spec.budgetFactor emp (Spec.effectiveBudget budget) n.
Proof.
  intros Hn Hq. unfold budgetFactorOf, Spec.budgetFactor, Spec.effectiveBudget.
  destruct budget as [b|]; [|reflexivity].
  destruct (JS.Qnonzero b); [|reflexivity].
  assert ((0 <? n)%nat = true) as -> by (apply Nat.ltb_lt; lia).
  cbn [andb JS.ltb JS.gtb JS.mul JS.lift2].
  assert (q * 0.8 == 0.8 * Spec.baseSalary emp)%Q as H1 by (rewrite Hq; ring).
  assert (q * 1.5 == 1.5 * Spec.baseSalary emp)%Q as H2 by (rewrite Hq; ring).
  rewrite (Qltb_proper _ _ (Qeq_refl (b / count n)) _ _ H1).
  rewrite (Qltb_proper _ _ H2 _ _ (Qeq_refl (b / count n))).
  reflexivity.
Qed.

Lemma revenue_positive rev :
  JS.Qltb 0 (revenueBasedSalaryOf rev) = JS.Qltb 0 rev.
Proof.
  unfold revenueBasedSalaryOf. destruct (JS.Qltb 0 rev) eqn:E; [|reflexivity].
  apply Qltb_lt. apply Qltb_lt in E. lra.
Qed.

Lemma is_int_roundTo1000 x : is_int (Spec.roundTo1000 x).
Proof.
  exists (JS.Qround (x / 1000) * 1000)%Z. unfold Spec.roundTo1000.
  rewrite inject_Z_mult. reflexivity.
Qed.

Lemma combine_spec emp q f :
  Spec.shadowed emp = false -> (q == Spec.baseSalary emp)%Q ->
  exists v,
    JS.Math_round
      (combineFactors (Entry (Spec.band emp)) (JS.Num q)
         (perfMultiplierOf (perfScoreOf (performance emp)))
         (revenueBasedSalaryOf (JS.or_default (revenue emp) 0)) f)
    = JS.Num v
    /\ (v == Spec.clamp (0.9 * Range.min (Spec.band emp))
                        (1.2 * Range.max (Spec.band emp))
                        (Spec.roundTo1000 (Spec.blended emp * f)))%Q.
Proof.
  intros Hs Hq. unfold combineFactors.
  rewrite revenue_positive.
  pose proof (or_default_0 (revenue emp)) as Hr.
  set (rev := JS.or_default (revenue emp) 0) in *.
  assert (exists s, (if JS.Qltb 0 rev
                     then (JS.Num q * JS.Num (perfMultiplierOf (perfScoreOf (performance emp)))
                           * JS.Num 0.4 + JS.Num (revenueBasedSalaryOf rev * 0.6))%js
                     else (JS.Num q * JS.Num (perfMultiplierOf (perfScoreOf (performance emp))))%js)
                    = JS.Num s /\ (s == Spec.blended emp)%Q) as (s & -> & Hsb).
  { unfold Spec.blended, Spec.marketPath, Spec.perfMultiplier, perfMultiplierOf,
      revenueBasedSalaryOf.
    rewrite <- (Qltb_proper 0%Q 0%Q (Qeq_refl _) _ _ Hr).
    fold rev. destruct (JS.Qltb 0 rev);
      (eexists; split; [reflexivity|]);
      rewrite <- ?Hr, Hq, (perfScore_spec emp); ring. }
  cbn [range_min range_max JS.mul JS.div JS.lift2 JS.Math_round JS.Math_min JS.Math_max].
  eexists; split; [reflexivity|].
  destruct (band_facts emp) as (Hle & Hlo & Hhi & _).
  set (r := Spec.band emp) in *.
  assert (inject_Z (JS.Qround (s * f / 1000)) * 1000
          == Spec.roundTo1000 (Spec.blended emp * f))%Q as HX.
  { unfold Spec.roundTo1000.
    assert (s * f / 1000 == Spec.blended emp * f / 1000)%Q as H by (rewrite Hsb; reflexivity).
    rewrite (Qround_proper _ _ H). reflexivity. }
  rewrite clamp_max_min by exact Hle.
  assert (Range.min r * 0.9 == 0.9 * Range.min r)%Q as Hl by ring.
  assert (Range.max r * 1.2 == 1.2 * Range.max r)%Q as Hh by ring.
  rewrite Qround_int.
  - apply clamp_proper; assumption.
  - apply clamp_int; try assumption.
    eexists (_ * 1000)%Z. rewrite inject_Z_mult. reflexivity.
Qed.

Lemma calculate_within_band emp budget n :
  Spec.shadowed emp = false ->
  exists q, Analysis.suggestedSalary (calculateSuggestedSalary emp budget n) = JS.Num q
            /\ (0.9 * Range.min (Spec.band emp) <= q <= 1.2 * Range.max (Spec.band emp))%Q.
Proof.
  intros Hs. unfold calculateSuggestedSalary.
  cbn [Analysis.suggestedSalary]. fold (roleKey emp).
  destruct (baseSalary_spec emp Hs) as (q & -> & Hq).
  rewrite (marketRangeOf_band emp Hs).
  destruct (combine_spec emp q (budgetFactorOf budget n (JS.Num q)) Hs Hq) as (v & -> & Hv).
  exists v. split; [reflexivity|]. rewrite Hv.
  apply clamp_bounds. destruct (band_facts emp) as (Hle & _). lra.
Qed.

Lemma tableRevenue_key emp :
  Spec.tableRevenue emp = default 1200000%Q (roleRevenue !! roleKey emp).
Proof.
  unfold Spec.tableRevenue, roleKey, JS.str_or.
  destruct (role emp) as [s|]; [|reflexivity].
  destruct (String.eqb_spec s ""); [subst; vm_compute; reflexivity | reflexivity].
Qed.

Lemma roleRevenue_check :
  forallb (fun kq => JS.Qnonzero (snd kq)) (map_to_list roleRevenue) = true.
Proof. vm_compute. reflexivity. Qed.

Lemma roleRevenue_nonzero key q :
  roleRevenue !! key = Some q -> JS.Qnonzero q = true.
Proof.
  intros H. apply elem_of_map_to_list, list_elem_of_In in H.
  exact (proj1 (forallb_forall _ _) roleRevenue_check _ H).
Qed.

Lemma estimatedSalary_entry emp :
  Spec.shadowed emp = false ->
  JS.or (JS.Num (JS.or_default (salary emp) 0))
        (range_mid (marketRangeOf (roleKey emp)))
  = JS.Num (Spec.estimatedSalary0 emp).
Proof.
  intros Hs. rewrite (marketRangeOf_band emp Hs).
  unfold JS.or, JS.truthy, Spec.estimatedSalary0, JS.or_default, range_mid.
  destruct (salary emp) as [q|]; [|reflexivity].
  destruct (JS.Qnonzero q) eqn:E; [rewrite E; reflexivity | reflexivity].
Qed.

Lemma estimatedRevenue_entry emp :
  Spec.shadowed emp = false ->
  estimatedRevenueOf emp (roleKey emp) = JS.Num (Spec.estimatedRevenue0 emp).
Proof.
  intros Hs. unfold estimatedRevenueOf, Spec.estimatedRevenue0.
  rewrite tableRevenue_key.
  assert (JS.get roleRevenue "unknown" = JS.Own 1200000%Q) as ->
    by (vm_compute; reflexivity).
  unfold JS.get. unfold Spec.shadowed in Hs. fold (roleKey emp) in Hs. rewrite Hs.
  assert (match roleRevenue !! roleKey emp with
          | Some a => JS.or (JS.Num a) (JS.Num 1200000)
          | None => JS.Num 1200000
          end = JS.Num (default 1200000%Q (roleRevenue !! roleKey emp))) as Ht.
  { destruct (roleRevenue !! roleKey emp) as [q|] eqn:E; [|reflexivity].
    unfold JS.or, JS.truthy. rewrite (roleRevenue_nonzero _ _ E). reflexivity. }
  unfold JS.or_default at 1 2.
  destruct (revenue emp) as [q|].
  - destruct (JS.Qnonzero q) eqn:E.
    + rewrite E. unfold JS.or_default. rewrite E. reflexivity.
    + change (JS.Qnonzero 0) with false. cbv iota.
      unfold JS.or_default. rewrite E.
      destruct (roleRevenue !! roleKey emp); exact Ht.
  - change (JS.Qnonzero 0) with false. cbv iota. unfold JS.or_default.
    destruct (roleRevenue !! roleKey emp); exact Ht.
Qed.

(* ===================================================================== *)
(** ** The heuristic scorer                                                *)
(* ===================================================================== *)




(** C4 fails on the code: for the role "constructor" the table lookup finds
    [Object.prototype.constructor], the fallback to the "unknown" band is
    skipped, and the suggested salary of the heuristic is [NaN], which lies in
    no band. *)
Theorem heuristic_salary_on_inherited_role formatINR numberToString :
  suggestedSalary
    (heuristicAnalysis formatINR numberToString constructor_role None 1)
  = Some JS.NaN.
Proof. unfold heuristicAnalysis. cbn [suggestedSalary]. vm_compute. reflexivity. Qed.

(** For every other role the bound of C4 holds, whatever the budget and the
    employee count. *)
Lemma heuristic_salary_within_band formatINR numberToString emp budget n :
  Spec.shadowed emp = false ->
  exists q,
    suggestedSalary (heuristicAnalysis formatINR numberToString emp budget n)
    = Some (JS.Num q)
    /\ (0.9 * Range.min (Spec.band emp) <= q <= 1.2 * Range.max (Spec.band emp))%Q.
Proof.
  intros Hs. destruct (calculate_within_band emp budget n Hs) as (q & Hq & Hb).
  exists q. split; [|exact Hb]. unfold heuristicAnalysis. cbn [suggestedSalary].
  now rewrite Hq.
Qed.

Lemma heuristic_action formatINR numberToString emp budget n :
  action (heuristicAnalysis formatINR numberToString emp budget n)
  = Some (decide_action (perfScoreOf (performance emp))
            (estimatedRevenueOf emp (roleKey emp)
             - JS.or (JS.Num (JS.or_default (salary emp) 0))
                     (range_mid (marketRangeOf (roleKey emp))))%js
            (JS.or (JS.Num (JS.or_default (salary emp) 0))
                   (range_mid (marketRangeOf (roleKey emp))))
            budget).
Proof. reflexivity. Qed.

(* ===================================================================== *)
(** ** The decision orchestrator and the advisor bridge                    *)
(* ===================================================================== *)

Section Orchestrator.

Variable formatINR : JS.num -> string.
Variable numberToString : Q -> string.
Variable OPENAI_KEY : option string.
Variable JSON_parse : string -> option Json.

Abbreviation heuristic := (heuristicAnalysis formatINR numberToString).
Abbreviation analyze := (analyzeEmployee formatINR numberToString OPENAI_KEY JSON_parse).
Abbreviation bridge := (callOpenAI JSON_parse).

Lemma str_or_truthy text : JS.str_truthy (Some text) = true -> JS.str_or (Some text) "" = text.
Proof.
  unfold JS.str_truthy, JS.str_or. destruct (String.eqb text ""); [discriminate | reflexivity].
Qed.

(** The orchestrator returns one of two things. *)
Lemma analyze_cases resp emp budget n :
  analyze resp emp budget n = tagged (heuristic emp budget n) "heuristic"
  \/ exists aiResp,
       JS.str_truthy OPENAI_KEY = true
       /\ bridge resp emp budget n = Returns (JObject aiResp)
       /\ JS.str_truthy (action aiResp) = true
       /\ analyze resp emp budget n = tagged aiResp "openai".
Proof.
  unfold analyzeEmployee. destruct (JS.str_truthy OPENAI_KEY); [|left; reflexivity].
  cbn [negb]. destruct (bridge resp emp budget n) as [[| |aiResp]|];
    try (left; reflexivity).
  destruct (JS.str_truthy (action aiResp)) eqn:E; [|left; reflexivity].
  right. exists aiResp. repeat split; assumption.
Qed.

Lemma analyze_heuristic_path resp emp budget n :
  using_ (analyze resp emp budget n) = Some "heuristic" ->
  analyze resp emp budget n = tagged (heuristic emp budget n) "heuristic".
Proof.
  intros H. destruct (analyze_cases resp emp budget n) as [E|(ai & _ & _ & _ & E)];
    [exact E|].
  rewrite E in H. discriminate.
Qed.

(** What the bridge returns for a text that parses to an object. *)
Lemma bridge_object text parsed emp budget n :
  JS.str_truthy (Some text) = true ->
  JSON_parse (jsonText text) = Some (JObject parsed) ->
  exists aiResp,
    bridge (Content (Some text)) emp budget n = Returns (JObject aiResp)
    /\ action aiResp = action parsed
    /\ suggestedSalary aiResp
       = (if tooLow (suggestedSalary parsed)
          then Some (Analysis.suggestedSalary (calculateSuggestedSalary emp budget n))
          else suggestedSalary parsed)
    /\ salaryReason aiResp
       = (if tooLow (suggestedSalary parsed)
          then Some (JS.str_or (salaryReason parsed) "" +:+ marketNote)
          else salaryReason parsed)
    /\ currentSalary aiResp = Some (JS.Num (JS.or_default (salary emp) 0))
    /\ marketSalaryRange aiResp = Some (marketRangeOf (roleKey emp))
    /\ (num_truthy (suggestedSalary aiResp) && q_truthy (salary emp) = false ->
        salaryDifference aiResp = salaryDifference parsed
        /\ salaryDifferencePercent aiResp = salaryDifferencePercent parsed)
    /\ (forall s c,
          suggestedSalary aiResp = Some s -> JS.truthy s = true ->
          salary emp = Some c -> JS.Qnonzero c = true ->
          salaryDifference aiResp = Some (s - JS.Num c)%js
          /\ salaryDifferencePercent aiResp
             = Some (JS.Math_round ((s - JS.Num c) / JS.Num c * JS.Num 100)%js)).
Proof.
  intros Ht Hp. unfold callOpenAI. rewrite Ht. cbn [negb].
  rewrite (str_or_truthy text Ht), Hp.
  eexists. split; [reflexivity|].
  cbn [action suggestedSalary salaryReason currentSalary marketSalaryRange
       salaryDifference salaryDifferencePercent].
  do 5 (split; [reflexivity|]). split.
  - intros H. rewrite H. split; reflexivity.
  - intros s c H1 H2 H3 H4. rewrite H1, H3. cbn [num_truthy q_truthy].
    rewrite H2, H4. split; reflexivity.
Qed.




End Orchestrator.






(* ===================================================================== *)
(** ** The batch analyzer                                                  *)
(* ===================================================================== *)

Lemma length_filter_cons {A : Type} (f : A -> bool) (x : A) (l : list A) :
  length (List.filter f (x :: l))
  = ((if f x then 1 else 0) + length (List.filter f l))%nat.
Proof. cbn [List.filter]. destruct (f x); reflexivity. Qed.

(** A result is counted under at most one of the four actions. *)
Lemma recognized_once (r : Result.t) :
  ((if action_is "FIRE" r then 1 else 0)
   + (if action_is "PROMOTE" r then 1 else 0)
   + (if action_is "DECREASE_SALARY" r then 1 else 0)
   + (if action_is "NO_CHANGE" r then 1 else 0))%nat
  = if recognized r then 1%nat else 0%nat.
Proof.
  unfold recognized, action_is.
  destruct (action (Result.suggestion r)) as [x|]; [|reflexivity].
  destruct (String.eqb_spec x "FIRE") as [->|]; [reflexivity|].
  destruct (String.eqb_spec x "PROMOTE") as [->|]; [reflexivity|].
  destruct (String.eqb_spec x "DECREASE_SALARY") as [->|]; [reflexivity|].
  destruct (String.eqb_spec x "NO_CHANGE") as [->|]; reflexivity.
Qed.

Lemma breakdown_counts (results : list Result.t) :
  (length (List.filter (action_is "FIRE") results)
   + length (List.filter (action_is "PROMOTE") results)
   + length (List.filter (action_is "DECREASE_SALARY") results)
   + length (List.filter (action_is "NO_CHANGE") results))%nat
  = length (List.filter recognized results).
Proof.
  induction results as [|r rest IH]; [reflexivity|].
  rewrite !length_filter_cons, <- IH, <- recognized_once. lia.
Qed.

Lemma decide_action_cases perfScore profit estimatedSalary budget :
  let a := decide_action perfScore profit estimatedSalary budget in
  a = "FIRE" \/ a = "PROMOTE" \/ a = "DECREASE_SALARY" \/ a = "NO_CHANGE".
Proof.
  unfold decide_action.
  repeat match goal with
         | |- context [if ?c then _ else _] => destruct c
         end; cbv zeta; auto.
Qed.

Section Batch.

Variable formatINR : JS.num -> string.
Variable numberToString : Q -> string.
Variable OPENAI_KEY : option string.
Variable JSON_parse : string -> option Json.

Abbreviation loop := (analyzeLoop formatINR numberToString OPENAI_KEY JSON_parse).
Abbreviation analyzeAll :=
  (analyzeAllEmployees formatINR numberToString OPENAI_KEY JSON_parse).

Lemma length_analyzeLoop service i employees budget total :
  length (loop service i employees budget total) = length employees.
Proof.
  revert i. induction employees as [|e rest IH]; intros i; [reflexivity|].
  cbn [analyzeLoop length]. now rewrite IH.
Qed.

Lemma heuristic_results_recognized service i employees budget total :
  JS.str_truthy OPENAI_KEY = false ->
  List.filter recognized (loop service i employees budget total)
  = loop service i employees budget total.
Proof.
  intros K. revert i. induction employees as [|e rest IH]; intros i; [reflexivity|].
  cbn [analyzeLoop List.filter].
  assert (recognized
            {| Result.ssid := ssid e; Result.name := name e; Result.role := role e;
               Result.currentSalary := salary e;
               Result.suggestion :=
                 analyzeEmployee formatINR numberToString OPENAI_KEY JSON_parse
                   (service i) e budget total |} = true) as ->.
  { unfold recognized, action_is. cbn [Result.suggestion].
    unfold analyzeEmployee. rewrite K. cbn [negb tagged action].
    rewrite heuristic_action.
    destruct (decide_action_cases
                (perfScoreOf (performance e))
                (estimatedRevenueOf e (roleKey e)
                 - JS.or (JS.Num (JS.or_default (salary e) 0))
                         (range_mid (marketRangeOf (roleKey e))))%js
                (JS.or (JS.Num (JS.or_default (salary e) 0))
                       (range_mid (marketRangeOf (roleKey e))))
                budget) as [ -> | [ -> | [ -> | -> ] ] ]; reflexivity. }
  now rewrite IH.
Qed.


End Batch.



(* ===================================================================== *)
(** ** The action state machine                                            *)
(* ===================================================================== *)

Lemma str_truthy_some id : id <> "" -> JS.str_truthy (Some id) = true.
Proof.
  intros H. unfold JS.str_truthy. destruct (String.eqb_spec id ""); [contradiction|reflexivity].
Qed.

Lemma str_or_some id : id <> "" -> JS.str_or (Some id) "" = id.
Proof.
  intros H. unfold JS.str_or. destruct (String.eqb_spec id ""); [contradiction|reflexivity].
Qed.

(** What the route does once the request has passed validation and the
    employee has been found. *)
Lemma applyAction_found now db id emp act note changePercent :
  id <> "" -> existsb (String.eqb act) validActions = true ->
  employees db !! id = Some emp ->
  let body := {| req_ssid := Some id; req_action := Some act;
                 req_note := note; req_changePercent := changePercent |} in
  let moved := transition now emp act (salaryChangePercent emp act changePercent) in
  let record := {| a_ssid := id; a_action := act;
                   note := if JS.str_truthy note then note else None;
                   details := storedDetails (snd moved);
                   appliedAt := now |} in
  applyAction now db body
  = ({| employees := <[id := fst moved]> (employees db);
        actions := actions db ++ [record] |},
     Ok {| applied := record; employee := fst moved; actionDetails := snd moved |}).
Proof.
  intros Hid Hact Hemp. cbv zeta. unfold applyAction.
  cbn [req_ssid req_action req_note req_changePercent].
  assert (act <> "") as Hne by (intros ->; discriminate Hact).
  rewrite (str_truthy_some id Hid), (str_truthy_some act Hne).
  cbn [negb orb]. rewrite (str_or_some id Hid), (str_or_some act Hne), Hact.
  cbn [negb]. rewrite Hemp.
  destruct (transition now emp act (salaryChangePercent emp act changePercent));
    reflexivity.
Qed.



(** C9, as stated, fails: a stored recommendation of 0 percent is not
    applied.  For an employee whose suggestion recommends 0 percent, PROMOTE
    without an override applies the default 10. *)
Lemma stored_zero_percent_not_applied :
  ~ Stated.percent_from_suggestion reviewed "PROMOTE".
Proof.
  intros H. specialize (H keepSuggestion 0%Q eq_refl eq_refl).
  vm_compute in H. discriminate.
Qed.

(** C9, amended: an override is applied as given; without one, the applied
    percent is the stored [recommended_change_percent] when that is a nonzero
    number, and otherwise (no suggestion, no stored percent, or a stored
    percent of 0) the default +10 for PROMOTE, -10 for DECREASE_SALARY and 0
    for NO_CHANGE and FIRE; the previous salary is 0 when the employee has no
    stored salary (or a salary of 0), whether or not a suggestion exists. *)
Theorem applied_percent_and_previous_salary :
  (forall emp act p, salaryChangePercent emp act (Some p) = p)
  /\ (forall emp act s q,
        suggestion emp = Some s ->
        recommended_change_percent s = Some (JS.Num q) ->
        JS.Qnonzero q = true ->
        salaryChangePercent emp act None = q)
  /\ (forall emp act,
        suggestion emp = None ->
        salaryChangePercent emp act None = defaultPercent act)
  /\ (forall emp act,
        num_truthy (suggestion emp ≫= recommended_change_percent) = false ->
        salaryChangePercent emp act None = defaultPercent act)
  /\ (defaultPercent "PROMOTE" = 10%Q /\ defaultPercent "DECREASE_SALARY" = (-10)%Q
      /\ defaultPercent "NO_CHANGE" = 0%Q /\ defaultPercent "FIRE" = 0%Q)
  /\ (forall emp, q_truthy (salary emp) = false -> previousSalary emp = 0%Q)
  /\ (forall emp c,
        salary emp = Some c -> JS.Qnonzero c = true -> previousSalary emp = c).
Proof.
  split; [reflexivity|]. split; [|split; [|split; [|split; [|split]]]].
  - intros emp act s q Hs Hq Hnz. unfold salaryChangePercent.
    rewrite Hs. cbn. rewrite Hq, Hnz. reflexivity.
  - intros emp act Hs. unfold salaryChangePercent. rewrite Hs. reflexivity.
  - intros emp act H. unfold salaryChangePercent.
    destruct (suggestion emp ≫= recommended_change_percent) as [[q|]|];
      try reflexivity.
    cbn in H. rewrite H. reflexivity.
  - repeat split.
  - intros emp H. unfold previousSalary, suggestion_estimatedSalary.
    destruct (salary emp) as [c|]; [|reflexivity].
    cbn in H. cbn. rewrite H. reflexivity.
  - intros emp c Hs Hc. unfold previousSalary. rewrite Hs. cbn. rewrite Hc.
    reflexivity.
Qed.


(* ===================================================================== *)
(** ** Status transitions over the store                                   *)
(* ===================================================================== *)

Lemma keyed_insert (store : gmap string Employee) k e :
  keyed store -> ssid e = k -> keyed (<[k := e]> store).
Proof.
  intros Hk He k' e' H. destruct (decide (k = k')) as [<-|Hne].
  - rewrite lookup_insert_eq in H. congruence.
  - rewrite lookup_insert_ne in H by exact Hne. exact (Hk _ _ H).
Qed.

Lemma transition_ssid now emp act percent :
  ssid (fst (transition now emp act percent)) = ssid emp.
Proof.
  unfold transition.
  repeat match goal with
         | |- context [if ?c then _ else _] => destruct c
         end; reflexivity.
Qed.

Lemma transition_status now emp act percent :
  existsb (String.eqb act) validActions = true ->
  status (fst (transition now emp act percent))
  = if String.eqb act "FIRE" then "FIRED" else "ACTIVE".
Proof.
  intros H. unfold transition. cbn in H.
  destruct (String.eqb act "FIRE"); [reflexivity|].
  destruct (String.eqb act "PROMOTE"); [reflexivity|].
  destruct (String.eqb act "DECREASE_SALARY"); [reflexivity|].
  destruct (String.eqb act "NO_CHANGE"); [reflexivity|]. discriminate.
Qed.

(** What a successful action application amounts to. *)
Lemma applyAction_ok now db body db' r :
  applyAction now db body = (db', Ok r) ->
  exists id act emp,
    employees db !! id = Some emp
    /\ existsb (String.eqb act) validActions = true
    /\ a_ssid (applied r) = id /\ a_action (applied r) = act
    /\ employee r
       = fst (transition now emp act (salaryChangePercent emp act (req_changePercent body)))
    /\ db' = {| employees := <[id := employee r]> (employees db);
                actions := actions db ++ [applied r] |}.
Proof.
  unfold applyAction.
  destruct (negb (JS.str_truthy (req_ssid body)) || negb (JS.str_truthy (req_action body)));
    [discriminate|].
  destruct (existsb _ validActions) eqn:V; cbn [negb]; [|discriminate].
  destruct (employees db !! _) as [emp|] eqn:E; [|discriminate].
  destruct (transition now emp _ _) as [emp' d] eqn:T.
  intros H. injection H as <- <-.
  exists (JS.str_or (req_ssid body) ""), (JS.str_or (req_action body) ""), emp.
  cbn [applied a_ssid a_action employee]. rewrite T.
  repeat split; assumption.
Qed.

Lemma applyAction_keyed now db body :
  keyed (employees db) -> keyed (employees (fst (applyAction now db body))).
Proof.
  intros Hk. destruct (applyAction now db body) as [db' [e|e|r]] eqn:A.
  - unfold applyAction in A.
    repeat match type of A with
           | context [if ?c then _ else _] => destruct c
           | context [match ?c with Some _ => _ | None => _ end] => destruct c
           | context [let '(_, _) := ?c in _] => destruct c
           end; injection A as <-; try discriminate; exact Hk.
  - unfold applyAction in A.
    repeat match type of A with
           | context [if ?c then _ else _] => destruct c
           | context [match ?c with Some _ => _ | None => _ end] => destruct c
           | context [let '(_, _) := ?c in _] => destruct c
           end; injection A as <-; try discriminate; exact Hk.
  - destruct (applyAction_ok _ _ _ _ _ A) as (id & act & emp & He & _ & _ & _ & Hr & ->).
    cbn [fst employees]. apply keyed_insert; [exact Hk|].
    rewrite Hr, transition_ssid. exact (Hk _ _ He).
Qed.

Lemma postEmployee_keyed db body :
  keyed (employees db) -> keyed (employees (fst (postEmployee db body))).
Proof.
  intros Hk. unfold postEmployee. destruct (in_ssid body) as [id|]; [|exact Hk].
  destruct (String.eqb id ""); [exact Hk|].
  cbn [fst employees]. apply keyed_insert; [exact Hk | reflexivity].
Qed.

Lemma bulkLoop_keyed store body :
  keyed store -> keyed (fst (bulkLoop store body)).
Proof.
  revert store. induction body as [|input rest IH]; intros store Hk; [exact Hk|].
  cbn [bulkLoop]. destruct (JS.str_truthy (in_ssid input)).
  - specialize (IH (<[JS.str_or (in_ssid input) "" :=
                       upsertDoc (store !! JS.str_or (in_ssid input) "")
                         (JS.str_or (in_ssid input) "") input
                         (JS.str_or (in_status input) "ACTIVE")]> store)).
    destruct (bulkLoop _ rest) as [store' results]. cbn [fst] in *.
    apply IH. apply keyed_insert; [exact Hk | reflexivity].
  - specialize (IH store Hk). destruct (bulkLoop store rest). exact IH.
Qed.

Lemma postBulk_keyed db body :
  keyed (employees db) -> keyed (employees (fst (postBulk db body))).
Proof.
  intros Hk. unfold postBulk.
  pose proof (bulkLoop_keyed (employees db) body Hk) as H.
  destruct (bulkLoop (employees db) body). exact H.
Qed.

Lemma saveSuggestion_keyed now store r :
  keyed store -> keyed (saveSuggestion now store r).
Proof.
  intros Hk. unfold saveSuggestion.
  destruct (store !! Result.ssid r) as [e|] eqn:E; [|exact Hk].
  apply keyed_insert; [exact Hk|]. exact (Hk _ _ E).
Qed.

Lemma saveSuggestion_status now store r id :
  status <$> (saveSuggestion now store r !! id) = status <$> (store !! id).
Proof.
  unfold saveSuggestion.
  destruct (store !! Result.ssid r) as [e|] eqn:E; [|reflexivity].
  destruct (decide (Result.ssid r = id)) as [<-|Hne].
  - rewrite lookup_insert_eq, E. reflexivity.
  - rewrite lookup_insert_ne by exact Hne. reflexivity.
Qed.

Lemma saveSuggestion_other now store r id :
  Result.ssid r <> id -> saveSuggestion now store r !! id = store !! id.
Proof.
  intros Hne. unfold saveSuggestion.
  destruct (store !! Result.ssid r); [|reflexivity].
  rewrite lookup_insert_ne by exact Hne. reflexivity.
Qed.

Lemma saved_keyed now results store :
  keyed store -> keyed (fold_left (saveSuggestion now) results store).
Proof.
  revert store. induction results as [|r rest IH]; intros store Hk; [exact Hk|].
  cbn [fold_left]. apply IH, saveSuggestion_keyed, Hk.
Qed.

Lemma saved_status now results store id :
  status <$> (fold_left (saveSuggestion now) results store !! id)
  = status <$> (store !! id).
Proof.
  revert store. induction results as [|r rest IH]; intros store; [reflexivity|].
  cbn [fold_left]. rewrite IH. apply saveSuggestion_status.
Qed.

Lemma saved_other now results store id :
  (forall r, In r results -> Result.ssid r <> id) ->
  fold_left (saveSuggestion now) results store !! id = store !! id.
Proof.
  revert store. induction results as [|r rest IH]; intros store H; [reflexivity|].
  cbn [fold_left]. rewrite IH by (intros r' Hr'; apply H; right; exact Hr').
  apply saveSuggestion_other, H. left. reflexivity.
Qed.

Lemma find_stored query store e :
  In e (find query store) -> query e = true /\ exists k, store !! k = Some e.
Proof.
  unfold find. rewrite filter_In. intros [Hin Hq]. split; [exact Hq|].
  apply list_elem_of_In, list_elem_of_fmap in Hin. destruct Hin as ([k e'] & -> & Hin).
  exists k. apply elem_of_map_to_list. exact Hin.
Qed.

Lemma analyzeQuery_not_fired ssids e :
  analyzeQuery ssids e = true -> status e <> "FIRED".
Proof.
  unfold analyzeQuery. rewrite andb_true_iff, negb_true_iff. intros [H _] Hs.
  rewrite Hs in H. discriminate.
Qed.

Lemma str_truthy_inv o : JS.str_truthy o = true -> o = Some (JS.str_or o "").
Proof.
  destruct o as [x|]; [|discriminate]. unfold JS.str_truthy, JS.str_or.
  destruct (String.eqb x ""); [discriminate | reflexivity].
Qed.

Lemma bulkLoop_status store body id e' :
  fst (bulkLoop store body) !! id = Some e' ->
  store !! id = Some e'
  \/ exists input,
       In input body /\ in_ssid input = Some id
       /\ status e' = JS.str_or (in_status input) "ACTIVE".
Proof.
  revert store. induction body as [|input rest IH]; intros store; [left; assumption|].
  cbn [bulkLoop]. destruct (JS.str_truthy (in_ssid input)) eqn:T.
  - specialize (IH (<[JS.str_or (in_ssid input) "" :=
                       upsertDoc (store !! JS.str_or (in_ssid input) "")
                         (JS.str_or (in_ssid input) "") input
                         (JS.str_or (in_status input) "ACTIVE")]> store)).
    destruct (bulkLoop _ rest) as [store' results]. cbn [fst] in *.
    intros H. destruct (IH H) as [H'|(i & Hi & Hs & Hst)].
    + destruct (decide (JS.str_or (in_ssid input) "" = id)) as [E|Hne].
      * right. exists input. rewrite E, lookup_insert_eq in H'. injection H' as <-.
        split; [left; reflexivity|]. split; [|reflexivity].
        rewrite <- E. apply str_truthy_inv, T.
      * left. rewrite lookup_insert_ne in H' by exact Hne. exact H'.
    + right. exists i. split; [right; exact Hi|]. split; assumption.
  - specialize (IH store). destruct (bulkLoop store rest). cbn [fst] in *.
    intros H. destruct (IH H) as [H'|(i & Hi & Hs & Hst)]; [left; exact H'|].
    right. exists i. split; [right; exact Hi|]. split; assumption.
Qed.

Section StateMachine.

Variable formatINR : JS.num -> string.
Variable numberToString : Q -> string.
Variable OPENAI_KEY : option string.
Variable JSON_parse : string -> option Json.

Abbreviation analyzeRoute :=
  (postAnalyze formatINR numberToString OPENAI_KEY JSON_parse).
Abbreviation serve := (handle formatINR numberToString OPENAI_KEY JSON_parse).
Abbreviation within_reach :=
  (reachable formatINR numberToString OPENAI_KEY JSON_parse).

Lemma analyzeLoop_ssids service i found budget total r :
  In r (analyzeLoop formatINR numberToString OPENAI_KEY JSON_parse
          service i found budget total) ->
  exists e, In e found /\ Result.ssid r = ssid e.
Proof.
  revert i. induction found as [|e rest IH]; intros i; [intros []|].
  cbn [analyzeLoop]. intros [<-|H].
  - exists e. split; [left; reflexivity | reflexivity].
  - destruct (IH _ H) as (e' & He' & Hs). exists e'. split; [right; exact He' | exact Hs].
Qed.

(** What the analyze route writes, and what it answers. *)
Lemma analyzeRoute_cases service now db budget ssids :
  (fst (analyzeRoute service now db budget ssids) = db
   /\ succeeded (snd (analyzeRoute service now db budget ssids)) = false)
  \/ exists analysis,
       analysis
       = analyzeAllEmployees formatINR numberToString OPENAI_KEY JSON_parse
           service (find (analyzeQuery ssids) (employees db)) budget
       /\ analyzeRoute service now db budget ssids
          = ({| employees :=
                  fold_left (saveSuggestion now) (fst analysis) (employees db);
                actions := actions db |}, Ok analysis).
Proof.
  unfold postAnalyze. destruct budget as [b|]; [|left; split; reflexivity].
  destruct (find (analyzeQuery ssids) (employees db)) as [|e rest] eqn:F;
    [left; split; reflexivity|].
  right. eexists. split; reflexivity.
Qed.

Lemma analyzeRoute_results service now db budget ssids results summary r :
  keyed (employees db) ->
  snd (analyzeRoute service now db budget ssids) = Ok (results, summary) ->
  In r results ->
  exists e, employees db !! Result.ssid r = Some e /\ status e <> "FIRED".
Proof.
  intros Hk Hok Hr.
  destruct (analyzeRoute_cases service now db budget ssids)
    as [[_ Hf]|(analysis & Ha & Hroute)].
  - rewrite Hok in Hf. discriminate.
  - rewrite Hroute in Hok. cbn [snd] in Hok. injection Hok as Hres.
    rewrite Ha in Hres. unfold analyzeAllEmployees in Hres.
    injection Hres as Hres _. rewrite <- Hres in Hr.
    destruct (analyzeLoop_ssids _ _ _ _ _ _ Hr) as (e & He & Hs).
    destruct (find_stored _ _ _ He) as (Hq & k & Hke).
    exists e. split; [|exact (analyzeQuery_not_fired _ _ Hq)].
    rewrite Hs, (Hk _ _ Hke). exact Hke.
Qed.

Lemma analyzeRoute_status service now db budget ssids id :
  status <$> (employees (fst (analyzeRoute service now db budget ssids)) !! id)
  = status <$> (employees db !! id).
Proof.
  destruct (analyzeRoute_cases service now db budget ssids)
    as [[-> _]|(analysis & _ & ->)]; [reflexivity|].
  cbn [fst employees]. apply saved_status.
Qed.

Lemma analyzeRoute_fired_untouched service now db budget ssids id e :
  keyed (employees db) ->
  employees db !! id = Some e -> status e = "FIRED" ->
  employees (fst (analyzeRoute service now db budget ssids)) !! id = Some e.
Proof.
  intros Hk He Hs.
  destruct (analyzeRoute_cases service now db budget ssids)
    as [[-> _]|(analysis & Ha & Hroute)]; [exact He|].
  pose proof (analyzeRoute_results service now db budget ssids
                (fst analysis) (snd analysis)) as Hres.
  rewrite Hroute in Hres |- *. cbn [fst snd employees] in *.
  rewrite saved_other; [exact He|].
  intros r Hr Heq.
  destruct (Hres r Hk) as (e' & He' & Hne); [destruct analysis; reflexivity | exact Hr |].
  rewrite Heq, He in He'. injection He' as <-. contradiction.
Qed.

Lemma reachable_keyed db : within_reach db -> keyed (employees db).
Proof.
  induction 1 as [|now db req _ IH].
  - intros k e H. cbn in H. rewrite lookup_empty in H. discriminate.
  - destruct req as [body|body|service budget ssids|body]; cbn [handle].
    + apply postEmployee_keyed, IH.
    + apply postBulk_keyed, IH.
    + destruct (analyzeRoute_cases service now db budget ssids)
        as [[-> _]|(analysis & _ & ->)]; [exact IH|].
      cbn [fst employees]. apply saved_keyed, IH.
    + apply applyAction_keyed, IH.
Qed.


End StateMachine.



Lemma applied_percent_and_previous_salary_witness :
  salaryChangePercent engineer "PROMOTE" None = 10%Q
  /\ salaryChangePercent engineer "DECREASE_SALARY" None = (-10)%Q
  /\ previousSalary (blank "e4") = 0%Q.
Proof.
  destruct applied_percent_and_previous_salary
    as (_ & _ & Hnone & _ & (Hp & Hd & _) & Hzero & _).
  split; [rewrite (Hnone engineer "PROMOTE" eq_refl); exact Hp|].
  split; [rewrite (Hnone engineer "DECREASE_SALARY" eq_refl); exact Hd|].
  exact (Hzero (blank "e4") eq_refl).
Defined.


(* ===================================================================== *)
(** ** Worked examples                                                     *)
(* ===================================================================== *)

(** The end-to-end scenario: PROMOTE, 1,730,000, a profit of 2,000,000. *)
Example engineer_is_promoted :
  let s := heuristicAnalysis plain_format plain_number engineer None 1 in
  action s = Some "PROMOTE"
  /\ suggestedSalary s = Some (JS.Num 1730000)
  /\ profit s = Some (JS.Num 2000000)
  /\ recommended_change_percent s = Some (JS.Num 10).
Proof. vm_compute. repeat split. Qed.

Example lookup_own : marketRangeOf "sales" = Entry (Range.Build 400000 800000 1500000).
Proof. vm_compute. reflexivity. Qed.

Example lookup_missing : marketRangeOf "astronaut" = Entry Spec.unknownBand.
Proof. vm_compute. reflexivity. Qed.

Example lookup_inherited : marketRangeOf "constructor" = NotAnEntry.
Proof. vm_compute. reflexivity. Qed.

Example labels_by_priority :
  perfScoreOf (MString "Excellent") = 9%Q
  /\ perfScoreOf (MString "below average") = 5%Q
  /\ perfScoreOf (MString "LOW") = 2%Q
  /\ perfScoreOf (MString "n/a") = 5%Q
  /\ perfScoreOf (MNumber 12) = 10%Q.
Proof. vm_compute. repeat split. Qed.

Example braces_extracted :
  jsonText "Here you go: {action: FIRE} hope this helps" = "{action: FIRE}"
  /\ jsonText "} no object {" = ""
  /\ jsonText "plain text" = "plain text".
Proof. vm_compute. repeat split. Qed.

Example round_half_up :
  JS.Qround 2.5 = 3%Z /\ JS.Qround (-2.5) = (-2)%Z /\ JS.Qround 2.4 = 2%Z.
Proof. vm_compute. repeat split. Qed.

(* ===================================================================== *)
(** ** Supplementary results: the heuristic scorer                         *)
(* ===================================================================== *)

Lemma shape_check :
  forallb (fun kr => band_shape (snd kr)) (map_to_list MARKET_SALARY_RANGES) = true.
Proof. vm_compute. reflexivity. Qed.

Lemma band_shape_band emp : band_shape (Spec.band emp) = true.
Proof.
  unfold Spec.band.
  destruct (MARKET_SALARY_RANGES !! _) as [r|] eqn:H; [|vm_compute; reflexivity].
  apply elem_of_map_to_list, list_elem_of_In in H.
  exact (proj1 (forallb_forall _ _) shape_check _ H).
Qed.

Lemma band_shape_facts emp :
  let r := Spec.band emp in
  (Range.min r <= Range.mid r)%Q /\ (Range.mid r < Range.max r)%Q
  /\ thousands (Range.min r * 0.9) /\ thousands (Range.max r * 1.2)
  /\ (10000 <= Range.min r * 0.9)%Q.
Proof.
  pose proof (band_shape_band emp) as H. unfold band_shape in H.
  rewrite !andb_true_iff in H. destruct H as [[[[H1 H2] H3] H4] H5].
  apply Qle_bool_iff in H1, H5. apply Qltb_lt in H2. apply Qeq_bool_iff in H3, H4.
  split; [exact H1|]. split; [exact H2|].
  split; [eexists; symmetry; exact H3|].
  split; [eexists; symmetry; exact H4 | exact H5].
Qed.

Lemma Qmin2_spec x y : (JS.Qmin2 x y <= x /\ JS.Qmin2 x y <= y
                        /\ (JS.Qmin2 x y == x \/ JS.Qmin2 x y == y))%Q.
Proof.
  unfold JS.Qmin2. destruct (Qle_bool x y) eqn:E.
  - apply Qle_bool_iff in E. repeat split; lra.
  - apply Qleb_gt in E. repeat split; lra.
Qed.

Lemma Qmax2_spec x y : (x <= JS.Qmax2 x y /\ y <= JS.Qmax2 x y
                        /\ (JS.Qmax2 x y == x \/ JS.Qmax2 x y == y))%Q.
Proof.
  unfold JS.Qmax2. destruct (Qle_bool x y) eqn:E.
  - apply Qle_bool_iff in E. repeat split; lra.
  - apply Qleb_gt in E. repeat split; lra.
Qed.






(** X4: the heuristic always names one of the four actions, and its
    recommended percent is the fixed step for that action: +10 for PROMOTE,
    -10 for DECREASE_SALARY, 0 for FIRE and NO_CHANGE, the same default that
    action application falls back to. *)
Theorem heuristic_percent_matches_action formatINR numberToString emp budget n :
  let s := heuristicAnalysis formatINR numberToString emp budget n in
  exists a,
    action s = Some a
    /\ In a validActions
    /\ recommended_change_percent s = Some (JS.Num (defaultPercent a)).
Proof.
  cbv zeta. unfold heuristicAnalysis. cbn [action recommended_change_percent].
  match goal with
  | |- context [decide_action ?p ?q ?r ?b] =>
      destruct (decide_action_cases p q r b) as [ -> | [ -> | [ -> | -> ] ] ]
  end; eexists; (split; [reflexivity|]); (split; [cbn; tauto | reflexivity]).
Qed.

Lemma Qround_le x y : (x <= y)%Q -> (JS.Qround x <= JS.Qround y)%Z.
Proof. intros H. unfold JS.Qround. apply Qfloor_resp_le. lra. Qed.

Lemma toFixed2_range x :
  (0.2 <= x <= 0.95)%Q -> (0.2 <= JS.QtoFixed2 x <= 0.95)%Q.
Proof.
  intros [H1 H2]. unfold JS.QtoFixed2.
  assert (JS.Qltb x 0 = false) as -> by (apply Qltb_ge; lra).
  assert (20 <= JS.Qround (x * 100))%Z as L.
  { rewrite <- (Qround_Z 20). apply Qround_le. change (inject_Z 20) with 20%Q. lra. }
  assert (JS.Qround (x * 100) <= 95)%Z as U.
  { rewrite <- (Qround_Z 95). apply Qround_le. change (inject_Z 95) with 95%Q. lra. }
  rewrite Zle_Qle in L, U.
  change (inject_Z 20) with 20%Q in L. change (inject_Z 95) with 95%Q in U.
  unfold Qdiv. change (/ 100)%Q with (1 # 100)%Q. lra.
Qed.




Lemma budgetFactor_positive budget n base :
  (0 < budgetFactorOf budget n base)%Q.
Proof.
  unfold budgetFactorOf.
  repeat match goal with
         | |- context [match ?c with _ => _ end] => destruct c
         end; reflexivity.
Qed.

Lemma budgetFactor_shape budget n b1 b2 :
  (b1 == b2)%Q ->
  budgetFactorOf budget n (JS.Num b1) = budgetFactorOf budget n (JS.Num b2).
Proof.
  intros E. unfold budgetFactorOf. destruct budget as [b|]; [|reflexivity].
  destruct (JS.Qnonzero b && (0 <? n)%nat); [|reflexivity].
  cbn [JS.ltb JS.gtb JS.mul JS.lift2].
  assert (b1 * 0.8 == b2 * 0.8)%Q as E1 by (rewrite E; reflexivity).
  assert (b1 * 1.5 == b2 * 1.5)%Q as E2 by (rewrite E; reflexivity).
  rewrite (Qltb_proper _ _ (Qeq_refl (b / count n)) _ _ E1).
  rewrite (Qltb_proper _ _ E2 _ _ (Qeq_refl (b / count n))).
  reflexivity.
Qed.

(** The suggested salary, before the final rounding is undone, as a clamped
    multiple of 1000. *)
Lemma calculate_clamped emp budget n :
  Spec.shadowed emp = false ->
  exists q base,
    Analysis.suggestedSalary (calculateSuggestedSalary emp budget n) = JS.Num q
    /\ (base == Spec.baseSalary emp)%Q
    /\ (q == Spec.clamp (0.9 * Range.min (Spec.band emp))
                        (1.2 * Range.max (Spec.band emp))
                        (Spec.roundTo1000
                           (Spec.blended emp
                            * budgetFactorOf budget n (JS.Num base))))%Q.
Proof.
  intros Hs. unfold calculateSuggestedSalary.
  cbn [Analysis.suggestedSalary]. fold (roleKey emp).
  destruct (baseSalary_spec emp Hs) as (base & -> & Hb).
  rewrite (marketRangeOf_band emp Hs).
  destruct (combine_spec emp base (budgetFactorOf budget n (JS.Num base)) Hs Hb)
    as (v & -> & Hv).
  exists v, base. split; [reflexivity|]. split; assumption.
Qed.

Lemma thousands_proper x y : (x == y)%Q -> thousands x -> thousands y.
Proof. intros E [k Hk]. exists k. rewrite <- E. exact Hk. Qed.



Lemma clamp_mono lo hi x y :
  (lo <= hi)%Q -> (x <= y)%Q -> (Spec.clamp lo hi x <= Spec.clamp lo hi y)%Q.
Proof.
  intros H Hxy. unfold Spec.clamp.
  destruct (JS.Qltb x lo) eqn:A; [apply Qltb_lt in A | apply Qltb_ge in A];
  (destruct (JS.Qltb hi x) eqn:B; [apply Qltb_lt in B | apply Qltb_ge in B]);
  (destruct (JS.Qltb y lo) eqn:C; [apply Qltb_lt in C | apply Qltb_ge in C]);
  (destruct (JS.Qltb hi y) eqn:D; [apply Qltb_lt in D | apply Qltb_ge in D]);
  lra.
Qed.

Lemma roundTo1000_mono x y :
  (x <= y)%Q -> (Spec.roundTo1000 x <= Spec.roundTo1000 y)%Q.
Proof.
  intros H. unfold Spec.roundTo1000.
  assert (JS.Qround (x / 1000) <= JS.Qround (y / 1000))%Z as R.
  { apply Qround_le. unfold Qdiv. change (/ 1000)%Q with (1 # 1000)%Q. lra. }
  rewrite Zle_Qle in R. lra.
Qed.

(** X8: among positive attributed revenues, more revenue never lowers the
    suggested salary, everything else being equal (role not the name of a
    member of [Object.prototype]). *)
Theorem more_revenue_never_lowers_salary emp r1 r2 budget n :
  Spec.shadowed emp = false ->
  (0 < r1)%Q -> (r1 <= r2)%Q ->
  exists q1 q2,
    Analysis.suggestedSalary
      (calculateSuggestedSalary (with_revenue emp r1) budget n) = JS.Num q1
    /\ Analysis.suggestedSalary
         (calculateSuggestedSalary (with_revenue emp r2) budget n) = JS.Num q2
    /\ (q1 <= q2)%Q.
Proof.
  intros Hs H1 H12.
  destruct (calculate_clamped (with_revenue emp r1) budget n Hs)
    as (q1 & b1 & Hq1 & Hb1 & Hc1).
  destruct (calculate_clamped (with_revenue emp r2) budget n Hs)
    as (q2 & b2 & Hq2 & Hb2 & Hc2).
  exists q1, q2. split; [exact Hq1|]. split; [exact Hq2|].
  rewrite Hc1, Hc2.
  change (Spec.band (with_revenue emp r1)) with (Spec.band emp).
  change (Spec.band (with_revenue emp r2)) with (Spec.band emp).
  change (Spec.baseSalary (with_revenue emp r1)) with (Spec.baseSalary emp) in Hb1.
  change (Spec.baseSalary (with_revenue emp r2)) with (Spec.baseSalary emp) in Hb2.
  destruct (band_facts emp) as (Hle & _).
  apply clamp_mono; [lra|]. apply roundTo1000_mono.
  assert (budgetFactorOf budget n (JS.Num b1) = budgetFactorOf budget n (JS.Num b2)) as ->.
  { rewrite (budgetFactor_shape budget n b1 b2); [reflexivity|].
    rewrite Hb1, Hb2. reflexivity. }
  pose proof (budgetFactor_positive budget n (JS.Num b2)) as Hf.
  assert (Spec.blended (with_revenue emp r1) <= Spec.blended (with_revenue emp r2))%Q.
  { unfold Spec.blended. cbn [with_revenue revenue from_option]. cbv zeta. unfold id.
    change (Spec.marketPath (with_revenue emp r1)) with (Spec.marketPath emp).
    change (Spec.marketPath (with_revenue emp r2)) with (Spec.marketPath emp).
    assert (JS.Qltb 0 r1 = true) as -> by (apply Qltb_lt; exact H1).
    assert (JS.Qltb 0 r2 = true) as -> by (apply Qltb_lt; lra).
    lra. }
  nra.
Qed.

Lemma more_revenue_never_lowers_salary_witness :
  Spec.shadowed engineer = false /\ (0 < 1000000)%Q /\ (1000000 <= 2500000)%Q
  /\ exists q1 q2,
       Analysis.suggestedSalary
         (calculateSuggestedSalary (with_revenue engineer 1000000) None 1) = JS.Num q1
       /\ Analysis.suggestedSalary
            (calculateSuggestedSalary (with_revenue engineer 2500000) None 1) = JS.Num q2
       /\ (q1 <= q2)%Q.
Proof.
  assert (Spec.shadowed engineer = false) as Hs by (vm_compute; reflexivity).
  assert (0 < 1000000)%Q as H1 by reflexivity.
  assert (1000000 <= 2500000)%Q as H2 by discriminate.
  split; [exact Hs|]. split; [exact H1|]. split; [exact H2|].
  exact (more_revenue_never_lowers_salary engineer 1000000 2500000 None 1 Hs H1 H2).
Defined.

(* ===================================================================== *)
(** ** Supplementary results: the advisor bridge and the orchestrator      *)
(* ===================================================================== *)

Lemma append_nil (s : string) : "" +:+ s = s.
Proof. reflexivity. Qed.

Lemma append_cons (c : ascii) (x s : string) :
  String c x +:+ s = String c (x +:+ s).
Proof. reflexivity. Qed.

Lemma append_String_assoc (x : string) (c : ascii) (y z : string) :
  (x +:+ String c y) +:+ z = x +:+ String c (y +:+ z).
Proof.
  induction x as [|d x IH]; [reflexivity|].
  rewrite !append_cons. now rewrite IH.
Qed.

Lemma length_append (x y : string) :
  String.length (x +:+ y) = (String.length x + String.length y)%nat.
Proof.
  induction x as [|d x IH]; [reflexivity|].
  rewrite append_cons. cbn [String.length]. now rewrite IH.
Qed.

Lemma indexOf_append c pre rest :
  JS.indexOf c pre = None ->
  JS.indexOf c (pre +:+ String c rest) = Some (String.length pre).
Proof.
  induction pre as [|d pre IH].
  - intros _. rewrite append_nil. cbn [JS.indexOf String.length].
    rewrite Ascii.eqb_refl. reflexivity.
  - rewrite append_cons. cbn [JS.indexOf String.length].
    destruct (Ascii.eqb c d); [discriminate|].
    destruct (JS.indexOf c pre); [discriminate|]. intros _. now rewrite IH.
Qed.

Lemma lastIndexOf_append c x post :
  JS.lastIndexOf c post = None ->
  JS.lastIndexOf c (x +:+ String c post) = Some (String.length x).
Proof.
  intros H. induction x as [|d x IH].
  - rewrite append_nil. cbn [JS.lastIndexOf String.length].
    rewrite H, Ascii.eqb_refl. reflexivity.
  - rewrite append_cons. cbn [JS.lastIndexOf String.length]. now rewrite IH.
Qed.

Lemma substring_prefix (s post : string) :
  String.substring 0 (String.length s) (s +:+ post) = s.
Proof.
  induction s as [|c s IH].
  - rewrite append_nil. destruct post; reflexivity.
  - rewrite append_cons. cbn [String.substring String.length]. now rewrite IH.
Qed.

Lemma substring_skip (pre s : string) (m : nat) :
  String.substring (String.length pre) m (pre +:+ s) = String.substring 0 m s.
Proof.
  induction pre as [|c pre IH]; [reflexivity|].
  rewrite append_cons. cbn [String.substring String.length]. exact IH.
Qed.

(** X9: the extraction of the JSON text tolerates surrounding prose.  When
    the text is some prose without an opening brace, then a brace-delimited
    region, then some prose without a closing brace, the region is what is
    handed to the parser, braces inside the region included. *)
Theorem jsonText_ignores_prose (pre body post : string) :
  JS.indexOf "{" pre = None ->
  JS.lastIndexOf "}" post = None ->
  jsonText (pre +:+ String "{" (body +:+ String "}" post))
  = String "{" (body +:+ "}").
Proof.
  intros Hpre Hpost. unfold jsonText.
  rewrite (indexOf_append "{" pre _ Hpre).
  rewrite <- (append_String_assoc pre "{" body (String "}" post)).
  rewrite (lastIndexOf_append "}" (pre +:+ String "{" body) post Hpost).
  rewrite (append_String_assoc pre "{" body (String "}" post)).
  unfold JS.slice. rewrite substring_skip.
  replace (String.length (pre +:+ String "{" body) + 1 - String.length pre)%nat
    with (String.length (String "{" (body +:+ "}"))).
  - assert (String "{" (body +:+ String "}" post)
            = String "{" (body +:+ "}") +:+ post) as ->.
    { rewrite append_cons. f_equal. symmetry.
      exact (append_String_assoc body "}" "" post). }
    apply substring_prefix.
  - cbn [String.length]. rewrite !length_append. cbn [String.length]. lia.
Qed.

Lemma jsonText_ignores_prose_witness :
  JS.indexOf "{" "Here is my answer: " = None
  /\ JS.lastIndexOf "}" " Let me know." = None
  /\ jsonText ("Here is my answer: "
               +:+ String "{" ("a: {b: 1}" +:+ String "}" " Let me know."))
     = String "{" ("a: {b: 1}" +:+ "}").
Proof.
  split; [reflexivity|]. split; [reflexivity|].
  exact (jsonText_ignores_prose "Here is my answer: " "a: {b: 1}" " Let me know."
           eq_refl eq_refl).
Defined.

Section OrchestratorExtras.

Variable formatINR : JS.num -> string.
Variable numberToString : Q -> string.
Variable OPENAI_KEY : option string.
Variable JSON_parse : string -> option Json.

Abbreviation orchestrate :=
  (analyzeEmployee formatINR numberToString OPENAI_KEY JSON_parse).

(** The only way in which the bridge returns an object. *)
Lemma bridge_returns_object resp emp budget n aiResp :
  callOpenAI JSON_parse resp emp budget n = Returns (JObject aiResp) ->
  exists text parsed,
    resp = Content (Some text)
    /\ JS.str_truthy (Some text) = true
    /\ JSON_parse (jsonText text) = Some (JObject parsed).
Proof.
  unfold callOpenAI. destruct resp as [|[text|]]; try discriminate.
  destruct (JS.str_truthy (Some text)) eqn:T; [|discriminate]. cbn [negb].
  rewrite (str_or_truthy text T).
  destruct (JSON_parse (jsonText text)) as [[| |parsed]|] eqn:P; try discriminate.
  intros _. exists text, parsed. repeat split; assumption.
Qed.


(** X11: whatever the external service does, the suggestion that the
    orchestrator returns names a non-empty action, is tagged "heuristic" or
    "openai" (the latter only with a credential), and carries the market
    range looked up for the employee's role. *)
Theorem orchestrator_suggestion_complete resp emp budget n :
  let final := orchestrate resp emp budget n in
  JS.str_truthy (action final) = true
  /\ (using_ final = Some "heuristic"
      \/ (using_ final = Some "openai" /\ JS.str_truthy OPENAI_KEY = true))
  /\ marketSalaryRange final = Some (marketRangeOf (roleKey emp)).
Proof.
  cbv zeta.
  destruct (analyze_cases formatINR numberToString OPENAI_KEY JSON_parse
              resp emp budget n) as [E|(ai & K & Hb & A & E)];
    rewrite E; cbn [tagged action using_ marketSalaryRange].
  - split; [|split; [left; reflexivity | reflexivity]].
    rewrite heuristic_action.
    match goal with
    | |- context [decide_action ?p ?q ?r ?b] =>
        destruct (decide_action_cases p q r b) as [ -> | [ -> | [ -> | -> ] ] ]
    end; reflexivity.
  - split; [exact A|]. split; [right; split; [reflexivity | exact K]|].
    destruct (bridge_returns_object _ _ _ _ _ Hb) as (text & parsed & -> & T & P).
    destruct (bridge_object JSON_parse text parsed emp budget n T P)
      as (ai' & Hb' & _ & _ & _ & _ & Hm & _).
    rewrite Hb in Hb'. injection Hb' as <-. exact Hm.
Qed.

End OrchestratorExtras.


(* ===================================================================== *)
(** ** Supplementary results: the batch analyzer                           *)
(* ===================================================================== *)

Lemma margin_mono rev s1 s2 :
  (s2 <= s1)%Q -> (margin s1 rev <= margin s2 rev)%Q.
Proof.
  intros H. unfold margin. destruct (JS.Qltb 0 rev) eqn:R; [|lra].
  apply Qltb_lt in R. rewrite <- Zle_Qle. apply Qround_le.
  assert (s2 / rev <= s1 / rev)%Q.
  { unfold Qdiv. assert (0 < / rev)%Q by (apply Qinv_lt_0_compat; exact R). nra. }
  lra.
Qed.

Section BatchExtras.

Variable formatINR : JS.num -> string.
Variable numberToString : Q -> string.
Variable OPENAI_KEY : option string.
Variable JSON_parse : string -> option Json.

Abbreviation batch :=
  (analyzeAllEmployees formatINR numberToString OPENAI_KEY JSON_parse).

Lemma analyzeLoop_lookup service k (employees : list Employee) budget total i emp :
  employees !! i = Some emp ->
  analyzeLoop formatINR numberToString OPENAI_KEY JSON_parse
    service k employees budget total !! i
  = Some {| Result.ssid := ssid emp; Result.name := name emp;
            Result.role := role emp; Result.currentSalary := salary emp;
            Result.suggestion :=
              analyzeEmployee formatINR numberToString OPENAI_KEY JSON_parse
                (service (k + i)%nat) emp budget total |}.
Proof.
  revert k i. induction employees as [|e rest IH]; intros k i H; [discriminate|].
  destruct i as [|i]; cbn [analyzeLoop].
  - injection H as <-. rewrite Nat.add_0_r. reflexivity.
  - replace (k + S i)%nat with (S k + i)%nat by lia. exact (IH (S k) i H).
Qed.

(** X12: the batch keeps the order of its input.  The result at position
    [i] describes the employee at position [i], and its suggestion is what
    the orchestrator returns for that employee with the whole list's length
    as the employee count, whatever came before it in the list. *)
Theorem batch_results_by_position service (employees : list Employee) budget i emp :
  employees !! i = Some emp ->
  fst (batch service employees budget) !! i
  = Some {| Result.ssid := ssid emp; Result.name := name emp;
            Result.role := role emp; Result.currentSalary := salary emp;
            Result.suggestion :=
              analyzeEmployee formatINR numberToString OPENAI_KEY JSON_parse
                (service i) emp budget (length employees) |}.
Proof.
  intros H. unfold analyzeAllEmployees. cbn [fst].
  exact (analyzeLoop_lookup service 0 employees budget (length employees) i emp H).
Qed.

(** X13: the two profit margins of the summary are 0 when the total revenue
    is not positive (no division by zero), and with a positive total revenue
    non-negative projected savings never lower the margin. *)
Theorem batch_margins service employees budget :
  let summary :=
    snd (analyzeAllEmployees formatINR numberToString OPENAI_KEY JSON_parse
           service employees budget) in
  ((Summary.totalRevenue summary <= 0)%Q ->
   Summary.currentProfitMargin summary = 0%Q
   /\ Summary.projectedProfitMargin summary = 0%Q)
  /\ ((0 <= Summary.projectedSavings summary)%Q ->
      (Summary.currentProfitMargin summary
       <= Summary.projectedProfitMargin summary)%Q).
Proof.
  cbv zeta. unfold analyzeAllEmployees.
  cbn [snd Summary.totalRevenue Summary.currentProfitMargin
       Summary.projectedProfitMargin Summary.projectedSavings].
  split.
  - intros H. unfold margin.
    assert (JS.Qltb 0 (fold_left (fun sum e => (sum + JS.or_default (revenue e) 0)%Q)
                         employees 0%Q) = false) as -> by (apply Qltb_ge; exact H).
    split; reflexivity.
  - intros H. apply margin_mono. lra.
Qed.

End BatchExtras.

Lemma batch_results_by_position_witness :
  [engineer; idle_engineer] !! 1%nat = Some idle_engineer
  /\ fst (analyzeAllEmployees plain_format plain_number None parse_error
            (always "{}") [engineer; idle_engineer] None) !! 1%nat
     = Some {| Result.ssid := ssid idle_engineer; Result.name := name idle_engineer;
               Result.role := role idle_engineer;
               Result.currentSalary := salary idle_engineer;
               Result.suggestion :=
                 analyzeEmployee plain_format plain_number None parse_error
                   (always "{}" 1%nat) idle_engineer None
                   (length [engineer; idle_engineer]) |}.
Proof.
  split; [reflexivity|].
  exact (batch_results_by_position plain_format plain_number None parse_error
           (always "{}") [engineer; idle_engineer] None 1 idle_engineer eq_refl).
Defined.

Lemma batch_margins_witness :
  let summary :=
    snd (analyzeAllEmployees plain_format plain_number None parse_error
           (always "{}") [blank "e4"] None) in
  (Summary.totalRevenue summary <= 0)%Q
  /\ Summary.currentProfitMargin summary = 0%Q.
Proof.
  intros summary.
  assert (Summary.totalRevenue summary <= 0)%Q as H by (vm_compute; discriminate).
  split; [exact H|].
  exact (proj1 (proj1 (batch_margins plain_format plain_number None parse_error
                         (always "{}") [blank "e4"] None) H)).
Defined.

(* ===================================================================== *)
(** ** Supplementary results: the routes                                   *)
(* ===================================================================== *)

(** The two shapes of an answer of POST /action. *)
Lemma applyAction_shape now db body :
  (fst (applyAction now db body) = db
   /\ succeeded (snd (applyAction now db body)) = false)
  \/ exists emp' record,
       fst (applyAction now db body)
       = {| employees := <[JS.str_or (req_ssid body) "" := emp']> (employees db);
            actions := actions db ++ [record] |}
       /\ succeeded (snd (applyAction now db body)) = true
       /\ appliedAt record = now
       /\ a_ssid record = JS.str_or (req_ssid body) "".
Proof.
  unfold applyAction.
  destruct (negb (JS.str_truthy (req_ssid body)) || negb (JS.str_truthy (req_action body)));
    [left; split; reflexivity|].
  destruct (negb (existsb _ validActions)); [left; split; reflexivity|].
  destruct (employees db !! _) as [emp|]; [|left; split; reflexivity].
  destruct (transition now emp _ _) as [emp' d].
  right. eexists _, _. cbn [fst snd succeeded]. repeat split.
Qed.

(** X14: a request that POST /action refuses changes nothing, and one that
    it accepts changes no document but the one of the requested [ssid]. *)
Theorem applyAction_frame now db body :
  (succeeded (snd (applyAction now db body)) = false ->
   fst (applyAction now db body) = db)
  /\ (forall other,
        other <> JS.str_or (req_ssid body) "" ->
        employees (fst (applyAction now db body)) !! other
        = employees db !! other).
Proof.
  destruct (applyAction_shape now db body) as [[E F]|(emp' & record & E & S & _)].
  - rewrite E. split; [reflexivity|]. intros other _. reflexivity.
  - rewrite E, S. split; [discriminate|]. intros other Hne. cbn [employees].
    apply lookup_insert_ne. congruence.
Qed.

Lemma applyAction_frame_witness :
  "e1" <> JS.str_or (req_ssid (promoteRequest "e7" None)) ""
  /\ employees (fst (applyAction 200 sampleDb (promoteRequest "e7" None))) !! "e1"
     = employees sampleDb !! "e1".
Proof.
  assert ("e1" <> JS.str_or (req_ssid (promoteRequest "e7" None)) "") as H
    by discriminate.
  split; [exact H|].
  exact (proj2 (applyAction_frame 200 sampleDb (promoteRequest "e7" None)) "e1" H).
Defined.

Lemma upsertDoc_again prior id body st :
  upsertDoc (Some (upsertDoc prior id body st)) id body st
  = upsertDoc prior id body st.
Proof.
  unfold upsertDoc. cbn [mbind option_bind name experience role salary revenue
                         suggestion lastAnalyzed lastPromotedAt terminatedAt
                         performance from_option].
  f_equal; try reflexivity;
    try (unfold set_or_keep;
         match goal with |- context [match ?o with _ => _ end] => destruct o end;
         reflexivity).
Qed.



(** X16: with a whole, non-negative previous salary, PROMOTE and
    DECREASE_SALARY move the salary in the direction of the percent: a
    percent of at least 0 never lowers it, and a percent between -100 and 0
    never raises it and never makes it negative. *)
Theorem percent_direction now emp act percent :
  act = "PROMOTE" \/ act = "DECREASE_SALARY" ->
  is_int (previousSalary emp) ->
  (0 <= previousSalary emp)%Q ->
  exists new,
    salary (fst (transition now emp act percent)) = Some new
    /\ ((0 <= percent)%Q -> (previousSalary emp <= new)%Q)
    /\ ((-100 <= percent <= 0)%Q -> (0 <= new <= previousSalary emp)%Q).
Proof.
  intros Hact Hint Hpos.
  exists (inject_Z (JS.Qround (previousSalary emp * (1 + percent / 100)))).
  split; [destruct Hact as [->| ->]; reflexivity|].
  pose proof (Qround_int _ Hint) as Hr.
  set (prev := previousSalary emp) in *.
  assert (percent / 100 == percent * (1 # 100))%Q as Hd by (unfold Qdiv; reflexivity).
  split.
  - intros Hp. rewrite <- Hr at 1. rewrite <- Zle_Qle. apply Qround_le.
    rewrite Hd. nra.
  - intros [Hlo Hhi]. split.
    + change 0%Q with (inject_Z 0). rewrite <- Zle_Qle.
      rewrite <- (Qround_Z 0). apply Qround_le. change (inject_Z 0) with 0%Q.
      rewrite Hd. nra.
    + rewrite <- Hr at 2. rewrite <- Zle_Qle. apply Qround_le. rewrite Hd. nra.
Qed.

Lemma percent_direction_witness :
  is_int (previousSalary engineer) /\ (0 <= previousSalary engineer)%Q
  /\ exists new,
       salary (fst (transition 5 engineer "DECREASE_SALARY" (-10))) = Some new
       /\ ((-100 <= -10 <= 0)%Q -> (0 <= new <= previousSalary engineer)%Q).
Proof.
  assert (is_int (previousSalary engineer)) as Hi by (exists 1000000%Z; reflexivity).
  assert (0 <= previousSalary engineer)%Q as Hp by discriminate.
  split; [exact Hi|]. split; [exact Hp|].
  destruct (percent_direction 5 engineer "DECREASE_SALARY" (-10)
              (or_intror eq_refl) Hi Hp) as (new & Hs & _ & Hd).
  exists new. split; assumption.
Defined.

Lemma fmap_ssid_values (l : list (string * Employee)) :
  (forall k e, (k, e) ∈ l -> ssid e = k) ->
  ssid <$> (snd <$> l) = fst <$> l.
Proof.
  induction l as [|[k e] l IH]; intros H; [reflexivity|].
  cbn [fmap list_fmap fst snd]. rewrite (H k e) by left.
  f_equal. apply IH. intros k' e' Hin. apply H. right. exact Hin.
Qed.

Lemma NoDup_fmap_filter {A B : Type} (f : A -> B) (p : A -> bool) (l : list A) :
  NoDup (f <$> l) -> NoDup (f <$> List.filter p l).
Proof.
  induction l as [|x l IH]; cbn [fmap list_fmap List.filter]; [intros; constructor|].
  intros H. apply NoDup_cons in H. destruct H as [Hx Hl].
  destruct (p x); [|exact (IH Hl)].
  cbn [fmap list_fmap]. apply NoDup_cons. split; [|exact (IH Hl)].
  intros Hin. apply Hx.
  apply list_elem_of_fmap in Hin. destruct Hin as (y & Hy & Hin).
  apply list_elem_of_fmap. exists y. split; [exact Hy|].
  apply list_elem_of_In. apply list_elem_of_In in Hin.
  apply filter_In in Hin. tauto.
Qed.

Lemma find_NoDup query (store : gmap string Employee) :
  keyed store -> NoDup (ssid <$> find query store).
Proof.
  intros Hk. unfold find. apply NoDup_fmap_filter.
  rewrite fmap_ssid_values.
  - apply NoDup_fst_map_to_list.
  - intros k e Hin. apply Hk. apply elem_of_map_to_list. exact Hin.
Qed.

Lemma saved_lookup now results (store : gmap string Employee) r e :
  NoDup (Result.ssid <$> results) -> In r results ->
  store !! Result.ssid r = Some e ->
  fold_left (saveSuggestion now) results store !! Result.ssid r
  = Some (withSuggestion now e (Result.suggestion r)).
Proof.
  revert store. induction results as [|r0 rest IH]; intros store Hnd Hin He;
    [destruct Hin|].
  cbn [fmap list_fmap] in Hnd. apply NoDup_cons in Hnd. destruct Hnd as [Hr0 Hrest].
  cbn [fold_left]. destruct Hin as [->|Hin].
  - rewrite saved_other.
    + unfold saveSuggestion. rewrite He. apply lookup_insert_eq.
    + intros r' Hr' Heq. apply Hr0. apply list_elem_of_fmap.
      exists r'. split; [congruence|]. apply list_elem_of_In. exact Hr'.
  - apply IH; [exact Hrest | exact Hin |].
    rewrite saveSuggestion_other; [exact He|].
    intros Heq. apply Hr0. apply list_elem_of_fmap.
    exists r. split; [congruence|]. apply list_elem_of_In. exact Hin.
Qed.

Section RouteExtras.

Variable formatINR : JS.num -> string.
Variable numberToString : Q -> string.
Variable OPENAI_KEY : option string.
Variable JSON_parse : string -> option Json.

Abbreviation analyzeRequest :=
  (postAnalyze formatINR numberToString OPENAI_KEY JSON_parse).
Abbreviation respond := (handle formatINR numberToString OPENAI_KEY JSON_parse).
Abbreviation attainable :=
  (reachable formatINR numberToString OPENAI_KEY JSON_parse).

Lemma analyzeLoop_fmap service i found budget total :
  Result.ssid <$> analyzeLoop formatINR numberToString OPENAI_KEY JSON_parse
                    service i found budget total
  = ssid <$> found.
Proof.
  revert i. induction found as [|e rest IH]; intros i; [reflexivity|].
  cbn [analyzeLoop fmap list_fmap Result.ssid]. f_equal. apply IH.
Qed.

(** X17: the action history is append-only.  Whatever the request, the
    history afterwards is the history before followed by at most one record,
    and a record is added only by an accepted POST /action, stamped with the
    clock reading of that request. *)
Theorem audit_trail_append_only now db req :
  exists added,
    actions (respond now db req) = (actions db ++ added)%list
    /\ (length added <= 1)%nat
    /\ forall record,
         In record added ->
         appliedAt record = now
         /\ exists body,
              req = PostAction body
              /\ succeeded (snd (applyAction now db body)) = true
              /\ a_ssid record = JS.str_or (req_ssid body) "".
Proof.
  destruct req as [body|body|service budget ssids|body]; cbn [handle].
  - exists []. rewrite app_nil_r. split; [|split; [cbn; lia | intros r []]].
    unfold postEmployee. destruct (in_ssid body) as [id|]; [|reflexivity].
    destruct (String.eqb id ""); reflexivity.
  - exists []. rewrite app_nil_r. split; [|split; [cbn; lia | intros r []]].
    unfold postBulk. destruct (bulkLoop (employees db) body). reflexivity.
  - exists []. rewrite app_nil_r. split; [|split; [cbn; lia | intros r []]].
    destruct (analyzeRoute_cases formatINR numberToString OPENAI_KEY JSON_parse
                service now db budget ssids) as [[-> _]|(analysis & _ & ->)];
      reflexivity.
  - destruct (applyAction_shape now db body)
      as [[E F]|(emp' & record & E & S & T & I)]; rewrite E.
    + exists []. rewrite app_nil_r. split; [reflexivity|].
      split; [cbn; lia | intros r []].
    + exists [record]. split; [reflexivity|]. split; [cbn; lia|].
      intros r [<-|[]]. split; [exact T|]. exists body. repeat split; assumption.
Qed.




End RouteExtras.



(* ===================================================================== *)
(** ** Supplementary results: the dashboard                                *)
(* ===================================================================== *)

Lemma unit_clamp_bounds v : (0 <= Dashboard.clamp v 0 1 <= 1)%Q.
Proof.
  unfold Dashboard.clamp.
  pose proof (Qmax2_spec v 0) as (A & B & C).
  pose proof (Qmin2_spec (JS.Qmax2 v 0) 1) as (D & E & [F|F]); lra.
Qed.

Lemma unit_clamp_mono x y :
  (x <= y)%Q -> (Dashboard.clamp x 0 1 <= Dashboard.clamp y 0 1)%Q.
Proof.
  intros H. unfold Dashboard.clamp.
  pose proof (Qmax2_spec x 0) as (A & B & C).
  pose proof (Qmax2_spec y 0) as (A' & B' & C').
  pose proof (Qmin2_spec (JS.Qmax2 x 0) 1) as (D & E & F).
  pose proof (Qmin2_spec (JS.Qmax2 y 0) 1) as (D' & E' & F').
  destruct C, C', F, F'; lra.
Qed.

Lemma profitOf_mono e s1 s2 :
  (s1 <= s2)%Q -> (Dashboard.profitOf e s2 <= Dashboard.profitOf e s1)%Q.
Proof. unfold Dashboard.profitOf. intros H. lra. Qed.

Lemma marginOf_mono e s1 s2 :
  (0 <= Dashboard.revenueInfluence e)%Q -> (s1 <= s2)%Q ->
  (Dashboard.marginOf e s2 <= Dashboard.marginOf e s1)%Q.
Proof.
  intros Hrev H. unfold Dashboard.marginOf.
  destruct (Qeq_bool (Dashboard.revenueInfluence e) 0) eqn:E; [lra|].
  unfold Qdiv. apply Qmult_le_compat_r; [apply profitOf_mono, H|].
  apply Qinv_le_0_compat, Hrev.
Qed.

Lemma compositeOf_mono e s1 s2 :
  (0 <= Dashboard.revenueInfluence e)%Q -> (s1 <= s2)%Q ->
  (Dashboard.compositeOf e s2 <= Dashboard.compositeOf e s1)%Q.
Proof.
  intros Hrev H. unfold Dashboard.compositeOf. cbv zeta.
  pose proof (profitOf_mono e s1 s2 H) as Hp.
  pose proof (marginOf_mono e s1 s2 Hrev H) as Hm.
  assert (Dashboard.clamp (0.5 + Dashboard.profitOf e s2 / 33200000) 0 1
          <= Dashboard.clamp (0.5 + Dashboard.profitOf e s1 / 33200000) 0 1)%Q as A.
  { apply unit_clamp_mono. unfold Qdiv.
    change (/ 33200000)%Q with (1 # 33200000)%Q. lra. }
  assert (Dashboard.clamp (0.5 + Dashboard.marginOf e s2 / 0.5) 0 1
          <= Dashboard.clamp (0.5 + Dashboard.marginOf e s1 / 0.5) 0 1)%Q as B.
  { apply unit_clamp_mono. unfold Qdiv.
    change (/ 0.5)%Q with (10 # 5)%Q. lra. }
  lra.
Qed.

Ltac decide_Qltb :=
  repeat match goal with
  | |- context [JS.Qltb ?x ?y] =>
      let E := fresh "E" in
      destruct (JS.Qltb x y) eqn:E;
      [apply Qltb_lt in E | apply Qltb_ge in E];
      cbn [orb andb]
  end.

Lemma chooseAction_mono p1 c1 m1 p2 c2 m2 :
  (p2 <= p1)%Q -> (c2 <= c1)%Q -> (m2 <= m1)%Q ->
  (Dashboard.rank (Dashboard.chooseAction p2 c2 m2)
   <= Dashboard.rank (Dashboard.chooseAction p1 c1 m1))%nat.
Proof.
  intros Hp Hc Hm. unfold Dashboard.chooseAction.
  decide_Qltb; cbn [orb andb Dashboard.rank]; try lia; exfalso; lra.
Qed.

(** X21: in the what-if view, a higher scenario salary never yields a more
    favourable decision.  For an employee with non-negative revenue
    influence, raising the override salary never moves the action up in the
    order fire, decrease, keep, increase, and never raises the confidence,
    which always lies between 0 and 1. *)
Theorem higher_salary_never_improves_decision e s1 s2 :
  (0 <= Dashboard.revenueInfluence e)%Q -> (s1 <= s2)%Q ->
  (Dashboard.rank (Dashboard.action (Dashboard.deriveDecision e (Some s2)))
   <= Dashboard.rank (Dashboard.action (Dashboard.deriveDecision e (Some s1))))%nat
  /\ (Dashboard.confidence (Dashboard.deriveDecision e (Some s2))
      <= Dashboard.confidence (Dashboard.deriveDecision e (Some s1)))%Q
  /\ (0 <= Dashboard.confidence (Dashboard.deriveDecision e (Some s2)) <= 1)%Q.
Proof.
  intros Hrev H. unfold Dashboard.deriveDecision. cbv zeta.
  cbn [Dashboard.action Dashboard.confidence Dashboard.salaryOf].
  split; [|split].
  - apply chooseAction_mono;
      [apply profitOf_mono | apply compositeOf_mono | apply marginOf_mono];
      assumption.
  - apply unit_clamp_mono, compositeOf_mono; assumption.
  - apply unit_clamp_bounds.
Qed.

Lemma higher_salary_never_improves_decision_witness :
  exists e,
    nth_error Dashboard.mockEmployees 0 = Some e
    /\ (0 <= Dashboard.revenueInfluence e)%Q /\ (14940000 <= 60000000)%Q
    /\ (Dashboard.rank
          (Dashboard.action (Dashboard.deriveDecision e (Some 60000000%Q)))
        <= Dashboard.rank
             (Dashboard.action (Dashboard.deriveDecision e (Some 14940000%Q))))%nat.
Proof.
  eexists. split; [reflexivity|].
  assert (0 <= 51460000)%Q as H1 by discriminate.
  assert (14940000 <= 60000000)%Q as H2 by discriminate.
  split; [exact H1|]. split; [exact H2|].
  refine (proj1 (higher_salary_never_improves_decision _ 14940000 60000000 _ H2)).
  exact H1.
Defined.

Lemma compositeOf_risk e s :
  Dashboard.performance e = Dashboard.risk ->
  (Dashboard.compositeOf e s <= 0.7788)%Q.
Proof.
  intros Hrisk. unfold Dashboard.compositeOf. cbv zeta. rewrite Hrisk.
  pose proof (unit_clamp_bounds (0.5 + Dashboard.profitOf e s / 33200000)) as A.
  pose proof (unit_clamp_bounds (0.5 + Dashboard.marginOf e s / 0.5)) as B.
  assert (Dashboard.experienceWeights (Dashboard.experience e) <= 1)%Q as C
    by (destruct (Dashboard.experience e); discriminate).
  assert (0.02 <= Dashboard.locationCostPenalty (Dashboard.locationCost e))%Q as D
    by (destruct (Dashboard.locationCost e); discriminate).
  cbn [Dashboard.performanceWeights]. lra.
Qed.

(** X22: an employee in the [risk] performance band is never given
    [increase], whatever the salary, the revenue and the other bands: the
    composite score of such an employee stays below the 0.78 that
    [increase] requires. *)
Theorem risk_band_never_increased e overrideSalary :
  Dashboard.performance e = Dashboard.risk ->
  Dashboard.action (Dashboard.deriveDecision e overrideSalary)
  <> Dashboard.increase.
Proof.
  intros Hrisk. unfold Dashboard.deriveDecision. cbv zeta. cbn [Dashboard.action].
  pose proof (compositeOf_risk e (Dashboard.salaryOf e overrideSalary) Hrisk) as Hc.
  unfold Dashboard.chooseAction.
  decide_Qltb; cbn [orb andb]; try discriminate; exfalso; lra.
Qed.

Lemma risk_band_never_increased_witness :
  exists e,
    nth_error Dashboard.mockEmployees 3 = Some e
    /\ Dashboard.performance e = Dashboard.risk
    /\ Dashboard.action (Dashboard.deriveDecision e (Some 0%Q))
       <> Dashboard.increase.
Proof.
  eexists. split; [reflexivity|].
  split; [reflexivity|].
  apply risk_band_never_increased. reflexivity.
Defined.

(** X23: [fire] is never the decision for an employee who brings in at least
    what they cost: with non-negative revenue influence and non-negative
    profit, the action is not [fire]. *)
Theorem profitable_employee_never_fired e overrideSalary :
  (0 <= Dashboard.revenueInfluence e)%Q ->
  (0 <= Dashboard.profitability (Dashboard.deriveDecision e overrideSalary))%Q ->
  Dashboard.action (Dashboard.deriveDecision e overrideSalary) <> Dashboard.fire.
Proof.
  intros Hrev. unfold Dashboard.deriveDecision. cbv zeta.
  cbn [Dashboard.action Dashboard.profitability]. intros Hp.
  set (s := Dashboard.salaryOf e overrideSalary) in *.
  assert (0 <= Dashboard.marginOf e s)%Q as Hm.
  { unfold Dashboard.marginOf.
    destruct (Qeq_bool (Dashboard.revenueInfluence e) 0); [lra|].
    unfold Qdiv. apply Qmult_le_0_compat; [exact Hp|].
    apply Qinv_le_0_compat, Hrev. }
  unfold Dashboard.chooseAction.
  decide_Qltb; cbn [orb andb]; try discriminate; exfalso; lra.
Qed.

Lemma profitable_employee_never_fired_witness :
  exists e,
    nth_error Dashboard.mockEmployees 3 = Some e
    /\ (0 <= Dashboard.revenueInfluence e)%Q
    /\ (0 <= Dashboard.profitability (Dashboard.deriveDecision e (Some 6000000%Q)))%Q
    /\ Dashboard.action (Dashboard.deriveDecision e (Some 6000000%Q))
       <> Dashboard.fire.
Proof.
  eexists. split; [reflexivity|].
  assert (0 <= 7885000)%Q as H1 by discriminate.
  split; [exact H1|].
  assert (0 <= 7885000 - (6000000 + 996000))%Q as H2 by discriminate.
  split; [exact H2|].
  apply profitable_employee_never_fired; [exact H1 | exact H2].
Defined.

Lemma totals_invariant employees acc :
  let t := fold_left Dashboard.addEmployee employees acc in
  (Dashboard.netProfit acc
   == Dashboard.totalRevenue acc - Dashboard.totalExpense acc)%Q ->
  (Dashboard.netProfit t == Dashboard.totalRevenue t - Dashboard.totalExpense t)%Q.
Proof.
  revert acc. induction employees as [|e rest IH]; intros acc; cbv zeta;
    [tauto|].
  intros H. cbn [fold_left]. apply IH.
  unfold Dashboard.addEmployee. cbv zeta.
  cbn [Dashboard.netProfit Dashboard.totalRevenue Dashboard.totalExpense]. lra.
Qed.

Lemma totals_atRisk employees acc :
  Dashboard.atRisk (fold_left Dashboard.addEmployee employees acc)
  = (Dashboard.atRisk acc
     + length (List.filter
                 (fun e => JS.Qltb (Dashboard.profitOf e (Dashboard.salary e)) 0)
                 employees))%nat.
Proof.
  revert acc. induction employees as [|e rest IH]; intros acc;
    cbn [fold_left List.filter]; [cbn; lia|].
  rewrite IH. unfold Dashboard.addEmployee, Dashboard.profitOf. cbv zeta.
  cbn [Dashboard.atRisk].
  destruct (JS.Qltb _ 0); cbn [length]; lia.
Qed.

(** X24: the organisation totals are consistent for every list of employees:
    the net profit is the total revenue minus the total expense, the total
    expense is the total salary plus the variable expenses, and [atRisk] is
    the number of employees whose profit is negative. *)
Theorem org_totals_consistent employees :
  let t := Dashboard.totalsOf employees in
  (Dashboard.netProfit t == Dashboard.totalRevenue t - Dashboard.totalExpense t)%Q
  /\ Dashboard.atRisk t
     = length (List.filter
                 (fun e => JS.Qltb (Dashboard.profitOf e (Dashboard.salary e)) 0)
                 employees)
  /\ (Dashboard.atRisk t <= length employees)%nat.
Proof.
  cbv zeta. unfold Dashboard.totalsOf. split; [|split].
  - apply (totals_invariant employees Dashboard.noTotals). reflexivity.
  - rewrite totals_atRisk. reflexivity.
  - rewrite totals_atRisk. cbn [Dashboard.atRisk Dashboard.noTotals plus].
    apply filter_length_le.
Qed.
